(** * Document store over a vector index engine

    A shallow embedding of [app/backend/vector_store/chroma_store.py]
    (class [ChromaDocStore]) and of [app/frontend/utils/path_setup.py].

    The store is a thin synchronous wrapper: every method logs, forwards one
    request to the collection object of the engine, shapes the answer and
    logs again.  The engine is an interface here (record [Engine]); the
    methods are written in a state-and-exception monad whose state holds the
    engine's state, the clock and a chronological trace of log records and
    engine requests. *)

From Stdlib Require Import Ascii.
From stdpp Require Import base strings list gmap pretty sorting.

(** ** Python values the code handles *)

Abbreviation Id := string (only parsing).
Abbreviation Text := string (only parsing).
(** A metadata dictionary: string keys, scalar values (the code itself only
    ever stores ISO formatted dates). *)
Abbreviation Metadata := (gmap string string) (only parsing).

(** A raised exception: its class and what [str(e)] renders. *)
Record exn := Exn { exn_class : string; exn_str : string }.

Global Instance exn_eq_dec : EqDecision exn.
Proof. solve_decision. Defined.

Definition KeyError (k : string) : exn := Exn "KeyError" ("'" +:+ k +:+ "'").
Definition IndexError : exn := Exn "IndexError" "list index out of range".
Definition TypeError : exn :=
  Exn "TypeError" "'NoneType' object is not subscriptable".

(** Outcome of a pure Python expression: a value or a raised exception. *)
Abbreviation Res := (sum exn) (only parsing).

Global Instance Res_ret : MRet Res := λ _ a, inr a.
Global Instance Res_bind : MBind Res := λ _ _ f r,
  match r with inl e => inl e | inr a => f a end.

(** What a dictionary holds under one key: nothing (the key is absent),
    [None], or a value. *)
Inductive slot (A : Type) : Type :=
| Missing
| Null
| Val (a : A).
Global Arguments Missing {A}.
Global Arguments Null {A}.
Global Arguments Val {A} a.

(** [d[k]] *)
Definition getitem {A} (k : string) (s : slot A) : Res (option A) :=
  match s with
  | Missing => inl (KeyError k)
  | Null => inr None
  | Val a => inr (Some a)
  end.

(** [k in d] *)
Definition contains_key {A} (s : slot A) : bool :=
  match s with Missing => false | _ => true end.

(** [v[i]] where [v] came out of a dictionary. *)
Definition subscript {A} (v : option (list A)) (i : nat) : Res A :=
  match v with
  | None => inl TypeError
  | Some l => match l !! i with Some x => inr x | None => inl IndexError end
  end.

(** [l[i]] on a list. *)
Definition item {A} (l : list A) (i : nat) : Res A :=
  match l !! i with Some x => inr x | None => inl IndexError end.

(** [[f(x) for x in l]] for a pure, possibly raising [f]. *)
Fixpoint collect {A B} (f : A → Res B) (l : list A) : Res (list B) :=
  match l with
  | [] => inr []
  | x :: l' => y ← f x; ys ← collect f l'; mret (y :: ys)
  end.

(** No character of [s] is [c]. *)
Fixpoint free_of (c : ascii) (s : string) : Prop :=
  match s with
  | EmptyString => True
  | String c' s' => c' ≠ c ∧ free_of c s'
  end.

(** ** path_setup.py *)

Module PathSetup.
Section Defs.
(** [os.path.abspath] and [os.path.dirname] belong to the interpreter. *)
Variables abspath dirname : string → string.

Definition current_dir (file : string) : string :=
  dirname (dirname (dirname (abspath file))).

(** The function mutates the global list [sys.path]; the list is threaded
    through.  [sys.path.insert(0, x)] puts [x] in front. *)
Definition add_project_root_to_path (file : string) (sys_path : list string)
  : list string :=
  if decide (current_dir file ∈ sys_path) then sys_path
  else current_dir file :: sys_path.

(** How many entries of the path equal [x]. *)
Definition occurrences (x : string) (l : list string) : nat :=
  length (filter (λ y, y = x) l).
End Defs.
End PathSetup.

(** ** The engine seen from the store *)

(** Requests the store sends to [self.collection], with their keyword
    arguments. *)
Inductive Call :=
| CollectionAdd (documents : list Text) (metadatas : list Metadata)
    (ids : list Id)
| CollectionQuery (query_texts : list Text) (n_results : Z)
    (where_ : option Metadata)
| CollectionGet (ids : list Id)
| CollectionDelete (ids : list Id)
| CollectionUpdate (ids : list Id) (documents : list Text)
    (metadatas : list Metadata).

Global Instance Call_eq_dec : EqDecision Call.
Proof. solve_decision. Defined.

(** The dictionary [collection.query] answers with: one outer sequence per
    query text. *)
Record QueryResult (Distance : Type) := {
  qr_ids : slot (list (list Id));
  qr_documents : slot (list (list Text));
  qr_metadatas : slot (list (list Metadata));
  qr_distances : slot (list (list Distance))
}.
Global Arguments qr_ids {Distance} _.
Global Arguments qr_documents {Distance} _.
Global Arguments qr_metadatas {Distance} _.
Global Arguments qr_distances {Distance} _.

(** The dictionary [collection.get] answers with. *)
Record GetResult := {
  gr_ids : slot (list Id);
  gr_documents : slot (list Text);
  gr_metadatas : slot (list Metadata)
}.

(** The collection object.  Each request takes the engine from one state to
    the next and either answers or raises.  [contents] is what the
    collection holds, document text and metadata by id; the store never
    calls it, the laws below relate the requests to it. *)
Record Engine (Distance : Type) := {
  est : Type;
  coll_add : list Text → list Metadata → list Id → est → Res unit * est;
  coll_query : list Text → Z → option Metadata → est
               → Res (QueryResult Distance) * est;
  coll_get : list Id → est → Res GetResult * est;
  coll_delete : list Id → est → Res unit * est;
  coll_update : list Id → list Text → list Metadata → est → Res unit * est;
  contents : est → gmap Id (Text * Metadata)
}.
Global Arguments est {Distance} _.
Global Arguments coll_add {Distance} _ _ _ _ _.
Global Arguments coll_query {Distance} _ _ _ _ _.
Global Arguments coll_get {Distance} _ _ _.
Global Arguments coll_delete {Distance} _ _ _.
Global Arguments coll_update {Distance} _ _ _ _ _.
Global Arguments contents {Distance} _ _.

(** What a point lookup of one id answers for a collection holding [c]. *)
Definition lookup_answer (c : gmap Id (Text * Metadata)) (id : Id) : GetResult :=
  match c !! id with
  | Some (text, metadata) =>
      {| gr_ids := Val [id]; gr_documents := Val [text];
         gr_metadatas := Val [metadata] |}
  | None =>
      {| gr_ids := Val []; gr_documents := Val []; gr_metadatas := Val [] |}
  end.

(** A lookup that answers reads the collection and leaves it as it is. *)
Definition get_law {Distance} (E : Engine Distance) : Prop :=
  ∀ (id : Id) (st st' : est E) (r : GetResult),
    coll_get E [id] st = (inr r, st') →
    r = lookup_answer (contents E st) id ∧ contents E st' = contents E st.

(** After a delete that succeeds none of the ids is in the collection. *)
Definition delete_law {Distance} (E : Engine Distance) : Prop :=
  ∀ (ids : list Id) (st st' : est E) (id : Id),
    coll_delete E ids st = (inr (), st') →
    id ∈ ids → contents E st' !! id = None.

(** After an add that succeeds, an id of the batch that was not stored
    before holds the text and the metadata sent at its position.  Ids are
    told apart by position, so the batch must not repeat one. *)
Definition add_law {Distance} (E : Engine Distance) : Prop :=
  ∀ (documents : list Text) (metadatas : list Metadata) (ids : list Id)
    (st st' : est E) (i : nat) (id : Id) (text : Text) (metadata : Metadata),
    coll_add E documents metadatas ids st = (inr (), st') →
    NoDup ids →
    ids !! i = Some id → documents !! i = Some text →
    metadatas !! i = Some metadata →
    contents E st !! id = None →
    contents E st' !! id = Some (text, metadata).

(** ** Observability *)

Inductive Level := Info | Success | Error.

Global Instance Level_eq_dec : EqDecision Level.
Proof. solve_decision. Defined.

(** One entry of the chronological trace of a run. *)
Inductive Event :=
| CliLog (lvl : Level) (msg : string) (context : option string)
    (details : list (string * string))   (* CliLogger.info/success/error *)
| PyLog (lvl : Level) (msg : string)      (* logger.info/error *)
| Tracked (op : string) (e : exn)         (* error_tracker *)
| Timed (op : string)                     (* performance_monitor *)
| Request (c : Call).                     (* self.collection.<method>(...) *)

Global Instance Event_eq_dec : EqDecision Event.
Proof. solve_decision. Defined.

(** The engine requests of a trace, in order. *)
Definition requests (t : list Event) : list Call :=
  omap (λ ev, match ev with Request c => Some c | _ => None end) t.

(** ** Results the store hands out *)

(** One entry of the list [similarity_search] returns: the dictionary with
    the keys ['id'], ['document'], ['metadata'] and ['distance']. *)
Record SearchHit (Distance : Type) := {
  hit_id : Id;
  hit_document : Text;
  hit_metadata : Metadata;
  hit_distance : option Distance
}.
Global Arguments Build_SearchHit {Distance} _ _ _ _.
Global Arguments hit_id {Distance} _.
Global Arguments hit_document {Distance} _.
Global Arguments hit_metadata {Distance} _.
Global Arguments hit_distance {Distance} _.

(** The dictionary [get_document] returns: keys ['id'], ['document'] and
    ['metadata']. *)
Record DocRecord := {
  rec_id : Id;
  rec_document : Text;
  rec_metadata : Metadata
}.

(** The record [get_document] builds for an id of a collection holding [c]. *)
Definition record_of (c : gmap Id (Text * Metadata)) (id : Id)
  : option DocRecord :=
  match c !! id with
  | Some (text, metadata) =>
      Some {| rec_id := id; rec_document := text; rec_metadata := metadata |}
  | None => None
  end.

(** ** chroma_store.py *)

Section Store.
Context {Distance : Type}.
(** [self.collection] *)
Variable E : Engine Distance.
(** The clock: what the k-th evaluation of [datetime.utcnow()] in a run
    renders as, through [.timestamp()] inside an f-string and through
    [.isoformat()]. *)
Variables utc_timestamp utc_isoformat : nat → string.

Record World := {
  engine : est E;        (* state of the collection *)
  ticks : nat;           (* how often the clock has been read *)
  trace : list Event     (* log records and engine requests so far *)
}.

(** A method run: from a world to an outcome and the world it leaves. *)
Definition M (A : Type) : Type := World → Res A * World.

#[local] Instance M_ret : MRet M := λ _ a w, (inr a, w).
#[local] Instance M_bind : MBind M := λ _ _ f m w,
  match m w with
  | (inl e, w') => (inl e, w')
  | (inr a, w') => f a w'
  end.

(** [raise e] *)
Definition raise {A} (e : exn) : M A := λ w, (inl e, w).

(** [try: body except Exception as e: handler] *)
Definition try_except {A} (body : M A) (handler : exn → M A) : M A := λ w,
  match body w with
  | (inl e, w') => handler e w'
  | (inr a, w') => (inr a, w')
  end.

(** A pure expression evaluated inside a method. *)
Definition eval {A} (r : Res A) : M A := λ w, (r, w).

Definition emit (ev : Event) : M unit := λ w,
  (inr (), {| engine := engine w; ticks := ticks w;
              trace := trace w ++ [ev] |}).

(** [datetime.utcnow()]: the index of the reading. *)
Definition utcnow : M nat := λ w,
  (inr (ticks w), {| engine := engine w; ticks := S (ticks w);
                     trace := trace w |}).

(** One request to the collection: recorded in the trace, then run. *)
Definition request {R} (c : Call) (run : est E → Res R * est E) : M R := λ w,
  let '(r, st) := run (engine w) in
  (r, {| engine := st; ticks := ticks w; trace := trace w ++ [Request c] |}).

(** [[f(x) for x in l]] where [f] reads the clock. *)
Fixpoint comprehension {A B} (f : A → M B) (l : list A) : M (list B) :=
  match l with
  | [] => mret []
  | x :: l' => y ← f x; ys ← comprehension f l'; mret (y :: ys)
  end.

(** Modelled from the spec: [error_tracker.handle_exception] is defined in
    [app.utils], which is not among the sources.  Sections 6 and 7 make the
    observability collaborators side channels that cannot mask or alter a
    result: the decorator records a failure and lets it propagate. *)
Definition handle_exception {A} (op : string) (body : M A) : M A := λ w,
  match body w with
  | (inl e, w') => (_ ← emit (Tracked op e); raise e) w'
  | (inr a, w') => (inr a, w')
  end.

(** Modelled from the spec: [performance_monitor.log_execution_time] is
    defined in [app.utils], which is not among the sources.  It records the
    timing on the success and on the failure path (section 7) and hands the
    outcome on. *)
Definition log_execution_time {A} (op : string) (body : M A) : M A := λ w,
  let '(r, w') := body w in (r, snd (emit (Timed op) w')).

Definition cli_log (lvl : Level) (msg : string) (context : option string)
    (details : list (string * string)) : M unit :=
  emit (CliLog lvl msg context details).

Definition py_log (lvl : Level) (msg : string) : M unit :=
  emit (PyLog lvl msg).

(** [f"doc_{i}_{datetime.utcnow().timestamp()}"] at the clock reading [t]. *)
Definition generated_id (i t : nat) : Id :=
  "doc_" +:+ pretty i +:+ "_" +:+ utc_timestamp t.

(** [{"timestamp": datetime.utcnow().isoformat()}] at the reading [t]. *)
Definition default_metadata (t : nat) : Metadata :=
  {[ "timestamp" := utc_isoformat t ]}.

Definition add_documents_body (documents : list Text)
    (metadatas : option (list Metadata)) (ids : option (list Id))
  : M (list Id) :=
  try_except
    (cli_log Info "Adding documents to vector store..." (Some "upload")
       [("doc_count", pretty (length documents))];;
     ids ← match ids with
           | None =>
               comprehension (λ i, t ← utcnow; mret (generated_id i t))
                 (seq 0 (length documents))
           | Some ids => mret ids
           end;
     metadatas ← match metadatas with
                 | None =>
                     comprehension (λ _, t ← utcnow; mret (default_metadata t))
                       documents
                 | Some metadatas => mret metadatas
                 end;
     request (CollectionAdd documents metadatas ids)
       (coll_add E documents metadatas ids);;
     cli_log Success "Documents added successfully!" (Some "upload") [];;
     py_log Info ("Added " +:+ pretty (length documents)
                  +:+ " documents to ChromaDB");;
     mret ids)
    (λ e,
     cli_log Error ("Error adding documents: " +:+ exn_str e) None [];;
     py_log Error ("Error adding documents to ChromaDB: " +:+ exn_str e);;
     raise e).

Definition add_documents (documents : list Text)
    (metadatas : option (list Metadata)) (ids : option (list Id))
  : M (list Id) :=
  log_execution_time "add_documents"
    (handle_exception "add_documents"
       (add_documents_body documents metadatas ids)).

(** [results[k][0][i]] *)
Definition cell {A} (k : string) (s : slot (list (list A))) (i : nat) : Res A :=
  v ← getitem k s; row ← subscript v 0; item row i.

(** The dictionary appended for position [i]; its values are evaluated in
    the order they are written. *)
Definition format_entry (results : QueryResult Distance) (i : nat)
  : Res (SearchHit Distance) :=
  id ← cell "ids" (qr_ids results) i;
  document ← cell "documents" (qr_documents results) i;
  metadata ← cell "metadatas" (qr_metadatas results) i;
  distance ← (if contains_key (qr_distances results)
              then d ← cell "distances" (qr_distances results) i; mret (Some d)
              else mret None);
  mret {| hit_id := id; hit_document := document;
          hit_metadata := metadata; hit_distance := distance |}.

(** [len(results['ids'][0])] *)
Definition results_found (results : QueryResult Distance) : Res nat :=
  v ← getitem "ids" (qr_ids results); row ← subscript v 0; mret (length row).

(** The loop [for i in range(len(results['ids'][0]))]. *)
Definition format_results (results : QueryResult Distance)
  : Res (list (SearchHit Distance)) :=
  n ← results_found results;
  collect (format_entry results) (seq 0 n).

Definition similarity_search_body (query : Text) (n_results : Z)
    (metadata_filter : option Metadata) : M (list (SearchHit Distance)) :=
  try_except
    (cli_log Info "Performing similarity search..." (Some "search")
       [("query", query); ("n_results", pretty n_results)];;
     results ← request (CollectionQuery [query] n_results metadata_filter)
                 (coll_query E [query] n_results metadata_filter);
     found ← eval (results_found results);
     cli_log Success "Search completed" (Some "search")
       [("results_found", pretty found)];;
     py_log Info ("Performed similarity search for query: " +:+ query);;
     eval (format_results results))
    (λ e,
     cli_log Error ("Error performing similarity search: " +:+ exn_str e)
       None [];;
     py_log Error ("Error performing similarity search: " +:+ exn_str e);;
     raise e).

Definition similarity_search (query : Text) (n_results : Z)
    (metadata_filter : option Metadata) : M (list (SearchHit Distance)) :=
  log_execution_time "similarity_search"
    (handle_exception "similarity_search"
       (similarity_search_body query n_results metadata_filter)).

Definition delete_documents_body (ids : list Id) : M unit :=
  try_except
    (cli_log Info "Deleting documents from vector store..." (Some "delete")
       [("doc_count", pretty (length ids))];;
     request (CollectionDelete ids) (coll_delete E ids);;
     cli_log Success "Documents deleted successfully!" (Some "delete") [];;
     py_log Info ("Deleted " +:+ pretty (length ids)
                  +:+ " documents from ChromaDB"))
    (λ e,
     cli_log Error ("Error deleting documents: " +:+ exn_str e) None [];;
     py_log Error ("Error deleting documents: " +:+ exn_str e);;
     raise e).

Definition delete_documents (ids : list Id) : M unit :=
  handle_exception "delete_documents" (delete_documents_body ids).

(** [if result['ids']:] an absent key raises, [None] and the empty list are
    false. *)
Definition truthy_ids (result : GetResult) : Res bool :=
  v ← getitem "ids" (gr_ids result);
  mret (match v with Some (_ :: _) => true | _ => false end).

(** [d[k][0]] *)
Definition first {A} (k : string) (s : slot (list A)) : Res A :=
  v ← getitem k s; subscript v 0.

Definition get_document_body (doc_id : Id) : M (option DocRecord) :=
  try_except
    (cli_log Info "Retrieving document from vector store..." (Some "retrieve")
       [("doc_id", doc_id)];;
     result ← request (CollectionGet [doc_id]) (coll_get E [doc_id]);
     found ← eval (truthy_ids result);
     if found : bool then
       cli_log Success "Document retrieved successfully!" (Some "retrieve") [];;
       id ← eval (first "ids" (gr_ids result));
       document ← eval (first "documents" (gr_documents result));
       metadata ← eval (first "metadatas" (gr_metadatas result));
       mret (Some {| rec_id := id; rec_document := document;
                     rec_metadata := metadata |})
     else
       cli_log Error "Document not found" (Some "retrieve") [];;
       mret None)
    (λ e,
     cli_log Error ("Error retrieving document: " +:+ exn_str e) None [];;
     py_log Error ("Error retrieving document " +:+ doc_id +:+ ": "
                   +:+ exn_str e);;
     raise e).

Definition get_document (doc_id : Id) : M (option DocRecord) :=
  handle_exception "get_document" (get_document_body doc_id).

(** [{"updated_at": datetime.utcnow().isoformat()}] at the reading [t]. *)
Definition update_stamp (t : nat) : Metadata :=
  {[ "updated_at" := utc_isoformat t ]}.

Definition update_document_body (doc_id : Id) (document : Text)
    (metadata : option Metadata) : M unit :=
  try_except
    (cli_log Info "Updating document in vector store..." (Some "update")
       [("doc_id", doc_id)];;
     metadata ← match metadata with
                | None => t ← utcnow; mret (update_stamp t)
                | Some metadata => mret metadata
                end;
     request (CollectionUpdate [doc_id] [document] [metadata])
       (coll_update E [doc_id] [document] [metadata]);;
     cli_log Success "Document updated successfully!" (Some "update") [];;
     py_log Info ("Updated document " +:+ doc_id))
    (λ e,
     cli_log Error ("Error updating document: " +:+ exn_str e) None [];;
     py_log Error ("Error updating document " +:+ doc_id +:+ ": "
                   +:+ exn_str e);;
     raise e).

Definition update_document (doc_id : Id) (document : Text)
    (metadata : option Metadata) : M unit :=
  handle_exception "update_document" (update_document_body doc_id document metadata).

(** *** What the methods compute, in closed form *)

(** [[g(x, now()) for x in l]]: element [k] of [l] meets the reading [t + k]. *)
Fixpoint stamped {A B} (g : A → nat → B) (t : nat) (l : list A) : list B :=
  match l with
  | [] => []
  | x :: l' => g x t :: stamped g (S t) l'
  end.

(** The ids and the metadatas [add_documents] sends when the clock has been
    read [t] times: the ids are resolved first, the metadatas after them. *)
Definition resolved_ids (documents : list Text) (ids : option (list Id))
    (t : nat) : list Id :=
  match ids with
  | None => stamped generated_id t (seq 0 (length documents))
  | Some ids => ids
  end.

Definition ticks_after_ids (documents : list Text) (ids : option (list Id))
    (t : nat) : nat :=
  match ids with None => length documents + t | Some _ => t end.

Definition resolved_metadatas (documents : list Text)
    (metadatas : option (list Metadata)) (t : nat) : list Metadata :=
  match metadatas with
  | None => stamped (λ _ k, default_metadata k) t documents
  | Some metadatas => metadatas
  end.

Definition ticks_after_metadatas (documents : list Text)
    (metadatas : option (list Metadata)) (t : nat) : nat :=
  match metadatas with None => length documents + t | Some _ => t end.

(** The world after [n] more readings of the clock. *)
Definition later (n : nat) (w : World) : World :=
  {| engine := engine w; ticks := n + ticks w; trace := trace w |}.

(** The world a method leaves: the engine in [st], the clock read [t] times,
    the events [evs] added to the trace. *)
Definition after (w : World) (st : est E) (t : nat) (evs : list Event)
  : World :=
  {| engine := st; ticks := t; trace := trace w ++ evs |}.

(** The metadata [update_document] sends and the clock it leaves. *)
Definition resolved_metadata (metadata : option Metadata) (t : nat) : Metadata :=
  match metadata with
  | None => update_stamp t
  | Some metadata => metadata
  end.

Definition ticks_after_update (metadata : option Metadata) (t : nat) : nat :=
  match metadata with None => S t | Some _ => t end.

(** The hits of one answer row read position by position. *)
Definition entries (ids : list Id) (documents : list Text)
    (metadatas : list Metadata) (distances : list (option Distance))
  : list (SearchHit Distance) :=
  zip_with (λ row distance,
              {| hit_id := row.1.1; hit_document := row.1.2;
                 hit_metadata := row.2; hit_distance := distance |})
    (zip (zip ids documents) metadatas) distances.

(** Two neighbouring hits are in order when their distances, if both are
    reported, are. *)
Definition hit_le (dle : relation Distance) (h1 h2 : SearchHit Distance) : Prop :=
  match hit_distance h1, hit_distance h2 with
  | Some d1, Some d2 => dle d1 d2
  | _, _ => True
  end.

End Store.

(** ** Two engines to run the store on *)

(** An in-memory collection following the engine contract of the
    specification (section 6): requests over (id, text, metadata) tuples,
    nearest first under a given metric.  It rejects sequences of different
    lengths and repeated ids, as a real index does; its update replaces the
    text of a stored id and merges the mapping it is sent into the stored
    one, key by key, and it refuses an empty mapping. *)
Module MemEngine.
Section Mem.
Variable metric : Text → Text → Z.
(** Whether the answer of a query has the key ['distances']. *)
Variable report_distances : bool.

Definition ValueError (msg : string) : exn := Exn "ValueError" msg.

Definition store_new (acc : gmap Id (Text * Metadata))
    (row : Id * Text * Metadata) : gmap Id (Text * Metadata) :=
  let '(id, text, metadata) := row in
  match acc !! id with
  | Some _ => acc
  | None => <[id := (text, metadata)]> acc
  end.

Definition add (documents : list Text) (metadatas : list Metadata)
    (ids : list Id) (st : gmap Id (Text * Metadata))
  : Res unit * gmap Id (Text * Metadata) :=
  if bool_decide (length documents = length ids
                  ∧ length metadatas = length ids) then
    if bool_decide (NoDup ids) then
      (inr (), foldl store_new st (zip (zip ids documents) metadatas))
    else (inl (Exn "DuplicateIDError" "Expected IDs to be unique"), st)
  else (inl (ValueError "Unequal lengths for fields"), st).

Definition matches (where_ : option Metadata) (metadata : Metadata) : bool :=
  match where_ with
  | None => true
  | Some cond => bool_decide (map_Forall (λ k v, metadata !! k = Some v) cond)
  end.

Definition nearer (q : Text) (a b : Id * (Text * Metadata)) : Prop :=
  (metric q a.2.1 ≤ metric q b.2.1)%Z.

#[local] Instance nearer_dec q a b : Decision (nearer q a b).
Proof. unfold nearer. apply _. Defined.

Definition hits (q : Text) (n_results : Z) (where_ : option Metadata)
    (st : gmap Id (Text * Metadata)) : list (Id * (Text * Metadata)) :=
  take (Z.to_nat n_results)
    (merge_sort (nearer q)
       (filter (λ row, matches where_ row.2.2 = true) (map_to_list st))).

Definition query (query_texts : list Text) (n_results : Z)
    (where_ : option Metadata) (st : gmap Id (Text * Metadata))
  : Res (QueryResult Z) * gmap Id (Text * Metadata) :=
  if bool_decide (0 < n_results)%Z then
    let rows := (λ q, hits q n_results where_ st) <$> query_texts in
    (inr {| qr_ids := Val ((λ row, fst <$> row) <$> rows);
            qr_documents := Val ((λ row, (λ h, h.2.1) <$> row) <$> rows);
            qr_metadatas := Val ((λ row, (λ h, h.2.2) <$> row) <$> rows);
            qr_distances :=
              if report_distances
              then Val (zip_with (λ q row, (λ h, metric q h.2.1) <$> row)
                          query_texts rows)
              else Missing |}, st)
  else (inl (ValueError "Number of requested results cannot be negative, or zero"), st).

Definition found (st : gmap Id (Text * Metadata)) (ids : list Id)
  : list (Id * (Text * Metadata)) :=
  omap (λ id, (λ d, (id, d)) <$> st !! id) ids.

Definition get (ids : list Id) (st : gmap Id (Text * Metadata))
  : Res GetResult * gmap Id (Text * Metadata) :=
  (inr {| gr_ids := Val (fst <$> found st ids);
          gr_documents := Val ((λ h, h.2.1) <$> found st ids);
          gr_metadatas := Val ((λ h, h.2.2) <$> found st ids) |}, st).

Definition delete (ids : list Id) (st : gmap Id (Text * Metadata))
  : Res unit * gmap Id (Text * Metadata) :=
  (inr (), foldr (λ id acc, base.delete id acc) st ids).

(** An update of a stored id: the text is replaced, the keys sent are set
    and the other stored keys stay.  An id that is not stored is skipped. *)
Definition merge_into (acc : gmap Id (Text * Metadata))
    (row : Id * Text * Metadata) : gmap Id (Text * Metadata) :=
  let '(id, text, metadata) := row in
  match acc !! id with
  | Some old => <[id := (text, metadata ∪ old.2)]> acc
  | None => acc
  end.

Definition update (ids : list Id) (documents : list Text)
    (metadatas : list Metadata) (st : gmap Id (Text * Metadata))
  : Res unit * gmap Id (Text * Metadata) :=
  if bool_decide (length documents = length ids
                  ∧ length metadatas = length ids) then
    if bool_decide (Forall (λ metadata, metadata ≠ ∅) metadatas) then
      (inr (), foldl merge_into st (zip (zip ids documents) metadatas))
    else (inl (ValueError "Expected metadata to be a non-empty dict"), st)
  else (inl (ValueError "Unequal lengths for fields"), st).

Definition collection : Engine Z :=
  {| est := gmap Id (Text * Metadata);
     coll_add := add; coll_query := query; coll_get := get;
     coll_delete := delete; coll_update := update;
     contents := λ st, st |}.
End Mem.
End MemEngine.

(** An engine that cannot be reached: every request raises. *)
Module Offline.
Definition unreachable : exn := Exn "ConnectionError" "engine unreachable".

Definition collection : Engine Z :=
  {| est := unit;
     coll_add := λ _ _ _ st, (inl unreachable, st);
     coll_query := λ _ _ _ st, (inl unreachable, st);
     coll_get := λ _ st, (inl unreachable, st);
     coll_delete := λ _ st, (inl unreachable, st);
     coll_update := λ _ _ _ st, (inl unreachable, st);
     contents := λ _, ∅ |}.
End Offline.

(** An engine with canned answers: every query is answered with [answer],
    every lookup with [found], and writes are accepted and forgotten.  It
    stands for an engine asked for, or giving, less than the store reads. *)
Module Scripted.
Definition collection (answer : QueryResult Z) (found : GetResult) : Engine Z :=
  {| est := unit;
     coll_add := λ _ _ _ st, (inr (), st);
     coll_query := λ _ _ _ st, (inr answer, st);
     coll_get := λ _ st, (inr found, st);
     coll_delete := λ _ st, (inr (), st);
     coll_update := λ _ _ _ st, (inr (), st);
     contents := λ _, ∅ |}.
End Scripted.

(** ** Concrete runs *)

Module Demo.
(** Distance between two texts: the difference of their lengths. *)
Definition metric (q d : Text) : Z :=
  Z.abs (Z.of_nat (String.length q) - Z.of_nat (String.length d)).

(** A clock that renders its k-th reading as the decimal of [1700000000 + k]. *)
Definition stamp (k : nat) : string :=
  pretty (1700000000 + N.of_nat k)%N +:+ ".5".
Definition iso (k : nat) : string := "2023-11-14T22:13:" +:+ pretty k.

Definition mem : Engine Z := MemEngine.collection metric true.
Definition mem_quiet : Engine Z := MemEngine.collection metric false.

Definition start (E : Engine Z) (st : est E) : World E :=
  {| engine := st; ticks := 0; trace := [] |}.

(** Two documents sent with a single id. *)
Definition mismatched_add : Res (list Id) * World mem :=
  add_documents mem stamp iso ["x"; "yy"] None (Some ["k"]) (start mem ∅).

Definition library : gmap Id (Text * Metadata) :=
  <["b" := ("graph theory", {["year" := "1736"]})]>
  (<["a" := ("sets", ∅)]>
  (<["c" := ("category", {["year" := "1945"]})]> ∅)).

(** An answer whose row of texts is shorter than its row of ids. *)
Definition short_answer : QueryResult Z :=
  {| qr_ids := Val [["a"; "b"]];
     qr_documents := Val [["sets"]];
     qr_metadatas := Val [[∅; ∅]];
     qr_distances := Val [[0; 1]%Z] |}.

(** An answer that binds ['distances'] to [None]. *)
Definition undistanced_answer : QueryResult Z :=
  {| qr_ids := Val [["a"; "b"]];
     qr_documents := Val [["sets"; "graph theory"]];
     qr_metadatas := Val [[∅; ∅]];
     qr_distances := Null |}.

(** A lookup answered with ids only. *)
Definition ids_only : GetResult :=
  {| gr_ids := Val ["a"]; gr_documents := Null; gr_metadatas := Null |}.

Definition scripted : Engine Z :=
  Scripted.collection undistanced_answer ids_only.
Definition scripted_short : Engine Z :=
  Scripted.collection short_answer ids_only.
End Demo.

(** * Properties *)

(** ** path_setup.py *)

Section PathSetupFacts.
Variables abspath dirname : string → string.
Abbreviation root := (PathSetup.current_dir abspath dirname).
Abbreviation add_root :=
  (PathSetup.add_project_root_to_path abspath dirname).

Lemma add_present file p : root file ∈ p → add_root file p = p.
Proof.
  intros Hin. unfold PathSetup.add_project_root_to_path.
  by rewrite decide_True.
Qed.

Lemma add_absent file p : root file ∉ p → add_root file p = root file :: p.
Proof.
  intros Hin. unfold PathSetup.add_project_root_to_path.
  by rewrite decide_False.
Qed.

Lemma root_in_result file p : root file ∈ add_root file p.
Proof.
  unfold PathSetup.add_project_root_to_path.
  case_decide; [done | apply list_elem_of_here].
Qed.

Lemma occurrences_absent (x : string) (l : list string) :
  x ∉ l → PathSetup.occurrences x l = 0.
Proof.
  unfold PathSetup.occurrences. induction l as [|y l IH]; intros Hx; [done|].
  apply not_elem_of_cons in Hx as [Hne Hx].
  rewrite filter_cons_False by congruence. by apply IH.
Qed.

Lemma occurrences_present (x : string) (l : list string) :
  x ∈ l → (1 ≤ PathSetup.occurrences x l)%nat.
Proof.
  unfold PathSetup.occurrences. induction l as [|y l IH]; intros Hx.
  - by apply elem_of_nil in Hx.
  - destruct (decide (y = x)) as [->|Hne].
    + rewrite filter_cons_True by done. simpl. lia.
    + rewrite filter_cons_False by done. apply IH.
      apply elem_of_cons in Hx as [->|Hx]; done.
Qed.

(** C10: a second call leaves [sys.path] as the first call left it; the
    root is on the path afterwards; the call puts the root in front exactly
    when it was not on the path, so the number of its occurrences goes from
    0 to 1 and is otherwise unchanged: the call never adds a second copy. *)
Theorem add_project_root_idempotent (file : string) (p : list string) :
  add_root file (add_root file p) = add_root file p
  ∧ root file ∈ add_root file p
  ∧ PathSetup.occurrences (root file) (add_root file p)
    = Nat.max 1 (PathSetup.occurrences (root file) p)
  ∧ add_root file p
    = (if bool_decide (root file ∈ p) then p else root file :: p).
Proof.
  split_and!.
  - apply add_present, root_in_result.
  - apply root_in_result.
  - destruct (decide (root file ∈ p)) as [Hin|Hout].
    + rewrite add_present by done.
      pose proof (occurrences_present _ _ Hin). lia.
    + rewrite add_absent by done.
      pose proof (occurrences_absent _ _ Hout) as Hzero.
      unfold PathSetup.occurrences in *. rewrite filter_cons.
      rewrite decide_True by reflexivity. simpl. lia.
  - case_bool_decide; [by apply add_present | by apply add_absent].
Qed.
End PathSetupFacts.

(** ** Pure steps: subscripts and the formatting loop *)

Section Formatting.
Context {Distance : Type}.

Lemma collect_seq {B} (f : nat → Res B) (l : list B) (s : nat) :
  (∀ i y, l !! i = Some y → f (s + i) = inr y) →
  collect f (seq s (length l)) = inr l.
Proof.
  revert s. induction l as [|y l IH]; intros s Hf; [done|].
  simpl. rewrite <- (Nat.add_0_r s) at 1.
  rewrite (Hf 0 y eq_refl). simpl.
  rewrite IH; [done|].
  intros i z Hz. replace (S s + i) with (s + S i) by lia. by apply Hf.
Qed.

Lemma cell_val {A} (k : string) (row : list A) (rest : list (list A))
    (i : nat) (x : A) :
  row !! i = Some x → cell k (Val (row :: rest)) i = inr x.
Proof. intros Hx. unfold cell, item. simpl. by rewrite Hx. Qed.

Lemma results_found_val (r : QueryResult Distance) (row : list Id)
    (rest : list (list Id)) :
  qr_ids r = Val (row :: rest) → results_found r = inr (length row).
Proof. intros Hr. unfold results_found. by rewrite Hr. Qed.

Lemma entries_lookup (ids : list Id) (documents : list Text)
    (metadatas : list Metadata) (distances : list (option Distance))
    (i : nat) (h : SearchHit Distance) :
  entries ids documents metadatas distances !! i = Some h →
  ids !! i = Some (hit_id h) ∧ documents !! i = Some (hit_document h)
  ∧ metadatas !! i = Some (hit_metadata h)
  ∧ distances !! i = Some (hit_distance h).
Proof.
  unfold entries. intros Hh.
  apply lookup_zip_with_Some in Hh as ([[id d] m] & x & -> & Hrow & Hx).
  apply lookup_zip_with_Some in Hrow as ([id' d'] & m' & Heq & Hrow & Hm).
  apply lookup_zip_with_Some in Hrow as (id'' & d'' & Heq' & Hid & Hd).
  simplify_eq. done.
Qed.

Lemma entries_length (ids : list Id) (documents : list Text)
    (metadatas : list Metadata) (distances : list (option Distance)) :
  length documents = length ids → length metadatas = length ids →
  length distances = length ids →
  length (entries ids documents metadatas distances) = length ids.
Proof.
  intros Hd Hm Hx. unfold entries.
  rewrite length_zip_with, !length_zip. lia.
Qed.

(** The loop over an answer whose first row is well formed and that has no
    key ['distances']. *)
Lemma format_results_quiet (r : QueryResult Distance) (ids : list Id)
    (documents : list Text) (metadatas : list Metadata) rest1 rest2 rest3 :
  qr_ids r = Val (ids :: rest1) →
  qr_documents r = Val (documents :: rest2) →
  qr_metadatas r = Val (metadatas :: rest3) →
  qr_distances r = Missing →
  length documents = length ids → length metadatas = length ids →
  format_results r
  = inr (entries ids documents metadatas (replicate (length ids) None)).
Proof.
  intros Hi Hd Hm Hx Hld Hlm. unfold format_results.
  rewrite (results_found_val _ _ _ Hi). simpl.
  rewrite <- (entries_length ids documents metadatas
                (replicate (length ids) None)) at 1
    by (by rewrite ?length_replicate).
  apply collect_seq. intros i h Hh.
  apply entries_lookup in Hh as (Hid & Hdoc & Hmeta & Hdist).
  apply lookup_replicate in Hdist as [Hnone _].
  unfold format_entry. rewrite Hi, Hd, Hm, Hx. simpl.
  rewrite (cell_val _ _ _ _ _ Hid), (cell_val _ _ _ _ _ Hdoc),
    (cell_val _ _ _ _ _ Hmeta). simpl.
  destruct h; simpl in *. by rewrite Hnone.
Qed.

(** The same loop over an answer that reports distances. *)
Lemma format_results_distances (r : QueryResult Distance) (ids : list Id)
    (documents : list Text) (metadatas : list Metadata)
    (distances : list Distance) rest1 rest2 rest3 rest4 :
  qr_ids r = Val (ids :: rest1) →
  qr_documents r = Val (documents :: rest2) →
  qr_metadatas r = Val (metadatas :: rest3) →
  qr_distances r = Val (distances :: rest4) →
  length documents = length ids → length metadatas = length ids →
  length distances = length ids →
  format_results r
  = inr (entries ids documents metadatas (Some <$> distances)).
Proof.
  intros Hi Hd Hm Hx Hld Hlm Hlx. unfold format_results.
  rewrite (results_found_val _ _ _ Hi). simpl.
  rewrite <- (entries_length ids documents metadatas (Some <$> distances)) at 1
    by (by rewrite ?length_fmap).
  apply collect_seq. intros i h Hh.
  apply entries_lookup in Hh as (Hid & Hdoc & Hmeta & Hdist).
  rewrite list_lookup_fmap in Hdist.
  destruct (distances !! i) as [x|] eqn:Hxi; simplify_eq/=.
  unfold format_entry. rewrite Hi, Hd, Hm, Hx. simpl.
  rewrite (cell_val _ _ _ _ _ Hid), (cell_val _ _ _ _ _ Hdoc),
    (cell_val _ _ _ _ _ Hmeta), (cell_val _ _ _ _ _ Hxi). simpl.
  destruct h; simpl in *. by subst.
Qed.

(** An answer with the key ['distances'] bound to [None] is not one that
    lacks the key: the subscript raises. *)
Lemma format_results_null_distances (r : QueryResult Distance) (id : Id)
    (ids : list Id) (document : Text) (documents : list Text)
    (metadata : Metadata) (metadatas : list Metadata) rest1 rest2 rest3 :
  qr_ids r = Val ((id :: ids) :: rest1) →
  qr_documents r = Val ((document :: documents) :: rest2) →
  qr_metadatas r = Val ((metadata :: metadatas) :: rest3) →
  qr_distances r = Null →
  format_results r = inl TypeError.
Proof.
  intros Hi Hd Hm Hx. unfold format_results.
  rewrite (results_found_val _ _ _ Hi). simpl.
  unfold format_entry. rewrite Hi, Hd, Hm, Hx. done.
Qed.
End Formatting.

(** ** similarity_search *)

Section SearchFacts.
Context {Distance : Type}.
Variable E : Engine Distance.

(** Once the engine has answered, the outcome of the method is the outcome
    of the formatting loop: a value is returned, an exception goes through
    the handler and is raised again. *)
Lemma similarity_search_answer (query : Text) (n_results : Z)
    (metadata_filter : option Metadata) (w : World E)
    (r : QueryResult Distance) (st' : est E) :
  coll_query E [query] n_results metadata_filter (engine E w) = (inr r, st') →
  fst (similarity_search E query n_results metadata_filter w)
  = format_results r.
Proof.
  intros Hq.
  unfold similarity_search, log_execution_time, handle_exception,
    similarity_search_body, try_except, request, eval, cli_log, py_log, emit,
    raise, mbind, M_bind, format_results.
  simpl. rewrite Hq. simpl.
  destruct (results_found r) as [e|k]; simpl; [done|].
  by destruct (collect (format_entry r) (seq 0 k)).
Qed.

Lemma entries_ids (ids : list Id) (documents : list Text)
    (metadatas : list Metadata) (distances : list (option Distance)) :
  length documents = length ids → length metadatas = length ids →
  length distances = length ids →
  hit_id <$> entries ids documents metadatas distances = ids.
Proof.
  revert documents metadatas distances.
  induction ids as [|id ids IH]; intros [|d ds] [|m ms] [|x xs] ???;
    simplify_eq/=; [done|].
  f_equal. apply IH; lia.
Qed.

Lemma entries_distances (ids : list Id) (documents : list Text)
    (metadatas : list Metadata) (distances : list (option Distance)) :
  length documents = length ids → length metadatas = length ids →
  length distances = length ids →
  hit_distance <$> entries ids documents metadatas distances = distances.
Proof.
  revert documents metadatas distances.
  induction ids as [|id ids IH]; intros [|d ds] [|m ms] [|x xs] ???;
    simplify_eq/=; [done|].
  f_equal. apply IH; lia.
Qed.

Lemma hits_sorted (dle : relation Distance) (hits : list (SearchHit Distance))
    (distances : list Distance) :
  hit_distance <$> hits = Some <$> distances →
  Sorted dle distances → Sorted (hit_le dle) hits.
Proof.
  revert distances.
  induction hits as [|h hits IH]; intros [|d ds] Heq Hs;
    try discriminate; [constructor|].
  simpl in Heq. injection Heq as Hh Hrest.
  apply Sorted_inv in Hs as [Hs Hhd]. constructor; [by eapply IH|].
  destruct hits as [|h' hits]; [constructor|].
  destruct ds as [|d' ds]; [discriminate|].
  injection Hrest as Hh' _.
  apply HdRel_inv in Hhd. constructor.
  unfold hit_le. by rewrite Hh, Hh'.
Qed.
(** C7: when the engine answers a query with no matching ids (the single
    row of ids is empty, as for an empty collection), [similarity_search]
    returns the empty list and raises nothing, whatever the other keys of
    the answer hold. *)
Theorem search_empty_collection (query : Text) (n_results : Z)
    (metadata_filter : option Metadata) (w : World E)
    (r : QueryResult Distance) (st' : est E) (rest : list (list Id)) :
  coll_query E [query] n_results metadata_filter (engine E w) = (inr r, st') →
  qr_ids r = Val ([] :: rest) →
  fst (similarity_search E query n_results metadata_filter w) = inr [].
Proof.
  intros Hq Hids. rewrite (similarity_search_answer _ _ _ _ _ _ Hq).
  unfold format_results. by rewrite (results_found_val _ _ _ Hids).
Qed.

(** C2, as the code has it: when the engine answers a query with parallel
    rows of ids, texts and metadatas, and its answer either has no key
    ['distances'] or has a row of distances as long as the row of ids,
    [similarity_search] returns (it does not raise) one entry per id; the
    entry at position [i] carries the id, the text and the metadata the
    engine gave at position [i], and its distance is [None] when the key is
    absent and the distance the engine gave at position [i] when the row is
    there. *)
Theorem search_entries_carry_fields (query : Text) (n_results : Z)
    (metadata_filter : option Metadata) (w : World E)
    (r : QueryResult Distance) (st' : est E)
    (ids : list Id) (documents : list Text) (metadatas : list Metadata)
    (distances : option (list Distance))
    (rest1 : list (list Id)) (rest2 : list (list Text))
    (rest3 : list (list Metadata)) :
  coll_query E [query] n_results metadata_filter (engine E w) = (inr r, st') →
  qr_ids r = Val (ids :: rest1) →
  qr_documents r = Val (documents :: rest2) →
  qr_metadatas r = Val (metadatas :: rest3) →
  match distances with
  | None => qr_distances r = Missing
  | Some row =>
      (∃ rest4, qr_distances r = Val (row :: rest4))
      ∧ length row = length ids
  end →
  length documents = length ids → length metadatas = length ids →
  ∃ hits : list (SearchHit Distance),
    fst (similarity_search E query n_results metadata_filter w) = inr hits
    ∧ length hits = length ids
    ∧ ∀ (i : nat) (h : SearchHit Distance), hits !! i = Some h →
        ids !! i = Some (hit_id h)
        ∧ documents !! i = Some (hit_document h)
        ∧ metadatas !! i = Some (hit_metadata h)
        ∧ hit_distance h = match distances with
                           | None => None
                           | Some row => row !! i
                           end.
Proof.
  intros Hq Hi Hd Hm Hx Hld Hlm.
  rewrite (similarity_search_answer _ _ _ _ _ _ Hq).
  destruct distances as [row|].
  - destruct Hx as [[rest4 Hx] Hlx].
    exists (entries ids documents metadatas (Some <$> row)). split_and!.
    + by eapply format_results_distances.
    + apply entries_length; by rewrite ?length_fmap.
    + intros i h Hh. apply entries_lookup in Hh as (? & ? & ? & Hdist).
      rewrite list_lookup_fmap in Hdist.
      destruct (row !! i) as [d|]; simplify_eq/=. done.
  - exists (entries ids documents metadatas (replicate (length ids) None)).
    split_and!.
    + by eapply format_results_quiet.
    + apply entries_length; by rewrite ?length_replicate.
    + intros i h Hh. apply entries_lookup in Hh as (? & ? & ? & Hnone).
      apply lookup_replicate in Hnone as [Hnone _]. done.
Qed.

(** C4: [similarity_search] keeps the order of the engine.  When the engine
    answers with parallel rows and its row of distances is non-decreasing,
    the returned list has the ids and the distances of the engine in the
    engine's order, hence is sorted by non-decreasing distance, equal
    distances staying as the engine ranked them. *)
Theorem search_sorted_by_distance (dle : relation Distance)
    (query : Text) (n_results : Z)
    (metadata_filter : option Metadata) (w : World E)
    (r : QueryResult Distance) (st' : est E)
    (ids : list Id) (documents : list Text) (metadatas : list Metadata)
    (distances : list Distance)
    (rest1 : list (list Id)) (rest2 : list (list Text))
    (rest3 : list (list Metadata)) (rest4 : list (list Distance)) :
  coll_query E [query] n_results metadata_filter (engine E w) = (inr r, st') →
  qr_ids r = Val (ids :: rest1) →
  qr_documents r = Val (documents :: rest2) →
  qr_metadatas r = Val (metadatas :: rest3) →
  qr_distances r = Val (distances :: rest4) →
  length documents = length ids → length metadatas = length ids →
  length distances = length ids →
  Sorted dle distances →
  ∃ hits : list (SearchHit Distance),
    fst (similarity_search E query n_results metadata_filter w) = inr hits
    ∧ hit_id <$> hits = ids
    ∧ hit_distance <$> hits = Some <$> distances
    ∧ Sorted (hit_le dle) hits.
Proof.
  intros Hq Hi Hd Hm Hx Hld Hlm Hlx Hsorted.
  exists (entries ids documents metadatas (Some <$> distances)).
  assert (hit_distance <$> entries ids documents metadatas (Some <$> distances)
          = Some <$> distances) as Hdist
    by (apply entries_distances; by rewrite ?length_fmap).
  split_and!.
  - rewrite (similarity_search_answer _ _ _ _ _ _ Hq).
    by eapply format_results_distances.
  - apply entries_ids; by rewrite ?length_fmap.
  - done.
  - by eapply hits_sorted.
Qed.
End SearchFacts.


(** ** add_documents *)

Section AddFacts.
Context {Distance : Type}.
Variable E : Engine Distance.
Variables utc_timestamp utc_isoformat : nat → string.


Lemma comprehension_stamped {A B} (f : A → M E B) (g : A → nat → B)
    (l : list A) (w : World E) :
  (∀ x v, f x v = (inr (g x (ticks E v)), later E 1 v)) →
  comprehension E f l w = (inr (stamped g (ticks E w) l), later E (length l) w).
Proof.
  intros Hf. revert w. induction l as [|x l IH]; intros w.
  - simpl. unfold mret, M_ret, later. by destruct w.
  - simpl. unfold mbind, M_bind. rewrite Hf, IH.
    unfold mret, M_ret, later. simpl.
    by replace (length l + S (ticks E w)) with (S (length l + ticks E w)) by lia.
Qed.

Lemma stamped_length {A B} (g : A → nat → B) (t : nat) (l : list A) :
  length (stamped g t l) = length l.
Proof. revert t. induction l as [|x l IH]; intros t; simpl; by rewrite ?IH. Qed.

Lemma stamped_lookup {A B} (g : A → nat → B) (t : nat) (l : list A) (i : nat) :
  stamped g t l !! i = (λ x, g x (t + i)) <$> l !! i.
Proof.
  revert t i. induction l as [|x l IH]; intros t [|i]; simpl; try done.
  - by rewrite Nat.add_0_r.
  - rewrite IH. by replace (S t + i) with (t + S i) by lia.
Qed.

Lemma stamped_elem {A B} (g : A → nat → B) (t : nat) (l : list A) (y : B) :
  y ∈ stamped g t l → ∃ x k, x ∈ l ∧ y = g x k.
Proof.
  revert t. induction l as [|x l IH]; intros t Hy; simpl in Hy.
  - by apply elem_of_nil in Hy.
  - apply elem_of_cons in Hy as [->|Hy].
    + exists x, t. split; [apply list_elem_of_here | done].
    + destruct (IH _ Hy) as (x' & k & Hx' & ->).
      exists x', k. split; [by apply list_elem_of_further | done].
Qed.

(** Stamping keeps distinct elements distinct when [g] tells its first
    arguments apart whatever the readings are. *)
Lemma stamped_NoDup {A B} (g : A → nat → B) (t : nat) (l : list A) :
  (∀ x x' k k', g x k = g x' k' → x = x') →
  NoDup l → NoDup (stamped g t l).
Proof.
  intros Hg. revert t. induction l as [|x l IH]; intros t Hl; simpl.
  - constructor.
  - apply NoDup_cons in Hl as [Hx Hl]. apply NoDup_cons. split; [|by apply IH].
    intros Hin. apply stamped_elem in Hin as (x' & k & Hx' & Heq).
    apply Hg in Heq. by subst.
Qed.
End AddFacts.

(** ** Generated ids *)

Section GeneratedIds.


(** Two strings that meet their first [c] at the same place: what comes
    before it is the same. *)
Lemma prefix_before_sep (c : ascii) (a b x y : string) :
  free_of c a → free_of c b →
  a +:+ String c x = b +:+ String c y → a = b.
Proof.
  revert b. induction a as [|ca a IH]; intros [|cb b] Ha Hb Heq;
    simpl in *; simplify_eq; try done.
  - by destruct Hb.
  - by destruct Ha.
  - f_equal. destruct Ha, Hb. by eapply IH.
Qed.

Lemma pretty_N_char_free (x : N) : pretty_N_char x ≠ "_"%char.
Proof. compute. by repeat (discriminate || case_match). Qed.

Lemma pretty_N_go_free (x : N) (s : string) :
  free_of "_" s → free_of "_" (pretty_N_go x s).
Proof.
  revert s. induction (N.lt_wf_0 x) as [x _ IH]; intros s Hs.
  destruct (decide (x = 0)%N) as [->|Hx]; [by rewrite pretty_N_go_0|].
  rewrite pretty_N_go_step by lia. apply IH.
  - apply N.div_lt; lia.
  - split; [apply pretty_N_char_free | done].
Qed.

Lemma pretty_nat_free (n : nat) : free_of "_" (pretty n).
Proof.
  unfold pretty, pretty_nat, pretty, pretty_N.
  case_decide; [by repeat split|]. by apply pretty_N_go_free.
Qed.

Variable utc_timestamp : nat → string.

(** The position alone tells two generated ids apart. *)
Lemma generated_id_inj (i j t t' : nat) :
  generated_id utc_timestamp i t = generated_id utc_timestamp j t' → i = j.
Proof.
  unfold generated_id. intros Heq.
  apply (inj (String.app "doc_")) in Heq. simpl in Heq.
  apply prefix_before_sep in Heq; [|apply pretty_nat_free..].
  by apply (inj pretty) in Heq.
Qed.

Lemma generated_ids_NoDup (t n : nat) :
  NoDup (stamped (generated_id utc_timestamp) t (seq 0 n)).
Proof.
  apply stamped_NoDup; [|apply NoDup_seq].
  intros i j k k'. apply generated_id_inj.
Qed.
End GeneratedIds.

(** ** Complete runs *)

Section Runs.
Context {Distance : Type}.
Variable E : Engine Distance.
Variables utc_timestamp utc_isoformat : nat → string.


Lemma requests_app (t1 t2 : list Event) :
  requests (t1 ++ t2) = requests t1 ++ requests t2.
Proof. unfold requests. apply omap_app. Qed.

(** [add_documents] from start to end, on both outcomes of the engine. *)
Lemma add_documents_run (documents : list Text)
    (metadatas : option (list Metadata)) (ids : option (list Id))
    (w : World E) :
  let ids' := resolved_ids utc_timestamp documents ids (ticks E w) in
  let t1 := ticks_after_ids documents ids (ticks E w) in
  let metadatas' := resolved_metadatas utc_isoformat documents metadatas t1 in
  let t2 := ticks_after_metadatas documents metadatas t1 in
  let started :=
    CliLog Info "Adding documents to vector store..." (Some "upload")
      [("doc_count", pretty (length documents))] in
  add_documents E utc_timestamp utc_isoformat documents metadatas ids w
  = match coll_add E documents metadatas' ids' (engine E w) with
    | (inl e, st') =>
        (inl e,
         after E w st' t2
           [started;
            Request (CollectionAdd documents metadatas' ids');
            CliLog Error ("Error adding documents: " +:+ exn_str e) None [];
            PyLog Error ("Error adding documents to ChromaDB: " +:+ exn_str e);
            Tracked "add_documents" e;
            Timed "add_documents"])
    | (inr _, st') =>
        (inr ids',
         after E w st' t2
           [started;
            Request (CollectionAdd documents metadatas' ids');
            CliLog Success "Documents added successfully!" (Some "upload") [];
            PyLog Info ("Added " +:+ pretty (length documents)
                        +:+ " documents to ChromaDB");
            Timed "add_documents"])
    end.
Proof.
  intros ids' t1 metadatas' t2 started.
  unfold add_documents, log_execution_time, handle_exception,
    add_documents_body, try_except.
  unfold mbind at 1 2 3 4 5 6. unfold M_bind, cli_log, py_log, request.
  unfold emit at 1. cbn [engine ticks trace].
  set (w1 := {| engine := engine E w; ticks := ticks E w;
                trace := trace E w ++ [started] |}).
  assert (∃ wi, (match ids with
                 | None =>
                     comprehension E
                       (λ i, t ← utcnow E; mret (generated_id utc_timestamp i t))
                       (seq 0 (length documents))
                 | Some ids0 => mret ids0
                 end) w1 = (inr ids', wi)
                ∧ engine E wi = engine E w ∧ ticks E wi = t1
                ∧ trace E wi = trace E w ++ [started]) as (wi & -> & Hei & Hti & Htri).
  { destruct ids as [ids0|]; simpl.
    - by eexists.
    - rewrite (comprehension_stamped E _ (generated_id utc_timestamp)) by done.
      eexists. split; [reflexivity|].
      subst t1. simpl. by rewrite length_seq. }
  assert (∃ wm, (match metadatas with
                 | None =>
                     comprehension E
                       (λ _ : Text, t ← utcnow E;
                                    mret (default_metadata utc_isoformat t))
                       documents
                 | Some ms => mret ms
                 end) wi = (inr metadatas', wm)
                ∧ engine E wm = engine E w ∧ ticks E wm = t2
                ∧ trace E wm = trace E w ++ [started]) as (wm & -> & Hem & Htm & Htrm).
  { destruct metadatas as [ms|]; simpl.
    - eexists. split; [done|]. subst t2. by simpl.
    - rewrite (comprehension_stamped E _
                 (λ _ k, default_metadata utc_isoformat k)) by done.
      eexists. split; [subst metadatas'; simpl; by rewrite Hti|].
      subst t2. simpl. by rewrite Hti. }
  rewrite Hem.
  destruct (coll_add E documents metadatas' ids' (engine E w)) as [[e|[]] st'];
    unfold after, emit, raise, mret, M_ret; simpl;
    rewrite Htm, Htrm, <- !app_assoc; reflexivity.
Qed.
Ltac run_method :=
  unfold similarity_search, delete_documents, get_document, update_document,
    log_execution_time, handle_exception, similarity_search_body,
    delete_documents_body, get_document_body, update_document_body,
    try_except, request, eval, cli_log, py_log, emit, raise, utcnow, after,
    mbind, mret, M_bind, M_ret;
  cbn [engine ticks trace fst snd].

Lemma similarity_search_fails (query : Text) (n_results : Z)
    (metadata_filter : option Metadata) (w : World E) (e : exn) (st' : est E) :
  coll_query E [query] n_results metadata_filter (engine E w) = (inl e, st') →
  similarity_search E query n_results metadata_filter w
  = (inl e,
     after E w st' (ticks E w)
       [CliLog Info "Performing similarity search..." (Some "search")
          [("query", query); ("n_results", pretty n_results)];
        Request (CollectionQuery [query] n_results metadata_filter);
        CliLog Error ("Error performing similarity search: " +:+ exn_str e)
          None [];
        PyLog Error ("Error performing similarity search: " +:+ exn_str e);
        Tracked "similarity_search" e;
        Timed "similarity_search"]).
Proof.
  intros Hq. run_method. rewrite Hq. cbn [engine ticks trace fst snd].
  by rewrite <- !app_assoc.
Qed.

Lemma delete_documents_run (ids : list Id) (w : World E) :
  let started :=
    CliLog Info "Deleting documents from vector store..." (Some "delete")
      [("doc_count", pretty (length ids))] in
  delete_documents E ids w
  = match coll_delete E ids (engine E w) with
    | (inl e, st') =>
        (inl e,
         after E w st' (ticks E w)
           [started;
            Request (CollectionDelete ids);
            CliLog Error ("Error deleting documents: " +:+ exn_str e) None [];
            PyLog Error ("Error deleting documents: " +:+ exn_str e);
            Tracked "delete_documents" e])
    | (inr _, st') =>
        (inr (),
         after E w st' (ticks E w)
           [started;
            Request (CollectionDelete ids);
            CliLog Success "Documents deleted successfully!" (Some "delete") [];
            PyLog Info ("Deleted " +:+ pretty (length ids)
                        +:+ " documents from ChromaDB")])
    end.
Proof.
  intros started. run_method.
  destruct (coll_delete E ids (engine E w)) as [[e|[]] st'];
    cbn [engine ticks trace fst snd]; by rewrite <- !app_assoc.
Qed.

Lemma get_document_fails (doc_id : Id) (w : World E) (e : exn) (st' : est E) :
  coll_get E [doc_id] (engine E w) = (inl e, st') →
  get_document E doc_id w
  = (inl e,
     after E w st' (ticks E w)
       [CliLog Info "Retrieving document from vector store..."
          (Some "retrieve") [("doc_id", doc_id)];
        Request (CollectionGet [doc_id]);
        CliLog Error ("Error retrieving document: " +:+ exn_str e) None [];
        PyLog Error ("Error retrieving document " +:+ doc_id +:+ ": "
                     +:+ exn_str e);
        Tracked "get_document" e]).
Proof.
  intros Hg. run_method. rewrite Hg. cbn [engine ticks trace fst snd].
  by rewrite <- !app_assoc.
Qed.


Lemma update_document_run (doc_id : Id) (document : Text)
    (metadata : option Metadata) (w : World E) :
  let metadata' := resolved_metadata utc_isoformat metadata (ticks E w) in
  let started :=
    CliLog Info "Updating document in vector store..." (Some "update")
      [("doc_id", doc_id)] in
  update_document E utc_isoformat doc_id document metadata w
  = match coll_update E [doc_id] [document] [metadata'] (engine E w) with
    | (inl e, st') =>
        (inl e,
         after E w st' (ticks_after_update metadata (ticks E w))
           [started;
            Request (CollectionUpdate [doc_id] [document] [metadata']);
            CliLog Error ("Error updating document: " +:+ exn_str e) None [];
            PyLog Error ("Error updating document " +:+ doc_id +:+ ": "
                         +:+ exn_str e);
            Tracked "update_document" e])
    | (inr _, st') =>
        (inr (),
         after E w st' (ticks_after_update metadata (ticks E w))
           [started;
            Request (CollectionUpdate [doc_id] [document] [metadata']);
            CliLog Success "Document updated successfully!" (Some "update") [];
            PyLog Info ("Updated document " +:+ doc_id)])
    end.
Proof.
  intros metadata' started. subst metadata'. run_method.
  destruct metadata as [m|]; cbn [resolved_metadata ticks_after_update];
    cbn [engine ticks trace fst snd];
    match goal with
    | |- context [coll_update E ?a ?b ?c ?d] =>
        destruct (coll_update E a b c d) as [[e|[]] st']
    end; cbn [engine ticks trace fst snd]; by rewrite <- !app_assoc.
Qed.
End Runs.

(** ** get_document, delete_documents, update_document *)

Section PointFacts.
Context {Distance : Type}.
Variable E : Engine Distance.
Variable utc_isoformat : nat → string.


Lemma get_document_raises (doc_id : Id) (w : World E) (e : exn) (st' : est E) :
  coll_get E [doc_id] (engine E w) = (inl e, st') →
  fst (get_document E doc_id w) = inl e.
Proof.
  intros Hg.
  unfold get_document, handle_exception, get_document_body, try_except,
    request, eval, cli_log, py_log, emit, raise, mbind, M_bind.
  simpl. by rewrite Hg.
Qed.

Lemma get_document_lookup (doc_id : Id) (w : World E)
    (c : gmap Id (Text * Metadata)) (st' : est E) :
  coll_get E [doc_id] (engine E w) = (inr (lookup_answer c doc_id), st') →
  fst (get_document E doc_id w) = inr (record_of c doc_id).
Proof.
  intros Hg.
  unfold get_document, handle_exception, get_document_body, try_except,
    request, eval, cli_log, py_log, emit, raise, mbind, M_bind.
  simpl. rewrite Hg. unfold lookup_answer, record_of.
  by destruct (c !! doc_id) as [[text metadata]|].
Qed.

Lemma delete_documents_returns (ids : list Id) (w w' : World E) :
  delete_documents E ids w = (inr (), w') →
  coll_delete E ids (engine E w) = (inr (), engine E w').
Proof.
  unfold delete_documents, handle_exception, delete_documents_body,
    try_except, request, eval, cli_log, py_log, emit, raise, mbind, M_bind.
  simpl. destruct (coll_delete E ids (engine E w)) as [[e|[]] st] eqn:Hd;
    simpl; intros Hrun; by simplify_eq.
Qed.

(** C6: over an engine whose lookups read the collection, [get_document]
    raises only what the engine raised; when the engine answers it returns
    [None] for an id the collection does not hold, and the record of id,
    text and metadata for an id it holds. *)
Theorem get_document_none_or_record (Hget : get_law E)
    (doc_id : Id) (w : World E) :
  match coll_get E [doc_id] (engine E w) with
  | (inl e, _) => fst (get_document E doc_id w) = inl e
  | (inr _, _) =>
      fst (get_document E doc_id w)
      = inr (match contents E (engine E w) !! doc_id with
             | Some (text, metadata) =>
                 Some {| rec_id := doc_id; rec_document := text;
                         rec_metadata := metadata |}
             | None => None
             end)
  end.
Proof.
  destruct (coll_get E [doc_id] (engine E w)) as [[e|r] st'] eqn:Hg.
  - by eapply get_document_raises.
  - destruct (Hget _ _ _ _ Hg) as [-> _].
    by rewrite (get_document_lookup _ _ _ _ Hg).
Qed.

(** C9: over an engine whose delete removes the ids and whose lookups read
    the collection, when [delete_documents([id])] has returned and the
    engine answers the lookup that follows, [get_document(id)] returns
    [None]. *)
Theorem delete_then_get_absent (Hget : get_law E) (Hdelete : delete_law E)
    (doc_id : Id) (w w' : World E) (r : GetResult) (st'' : est E) :
  delete_documents E [doc_id] w = (inr (), w') →
  coll_get E [doc_id] (engine E w') = (inr r, st'') →
  fst (get_document E doc_id w') = inr None.
Proof.
  intros Hdel Hg. apply delete_documents_returns in Hdel.
  assert (contents E (engine E w') !! doc_id = None) as Hgone
    by (eapply Hdelete; [done | apply list_elem_of_here]).
  destruct (Hget _ _ _ _ Hg) as [-> _].
  rewrite (get_document_lookup _ _ _ _ Hg). unfold record_of.
  by rewrite Hgone.
Qed.

(** C5, as the code has it: [update_document(doc_id, document)] without
    metadata sends the engine one update request, with the new text and a
    mapping whose only key is ["updated_at"], bound to the time of the
    call.  The store sends nothing else: it reads no stored metadata and
    merges nothing.  The engine is left as its update left it, and the
    call returns when the engine accepts and raises what the engine raised
    otherwise.  What the stored metadata is afterwards is the engine's
    doing. *)
Theorem update_document_sends_only_stamp (doc_id : Id) (document : Text)
    (w : World E) :
  let run := update_document E utc_isoformat doc_id document None w in
  let sent := {[ "updated_at" := utc_isoformat (ticks E w) ]} in
  requests (trace E (snd run))
  = requests (trace E w) ++ [CollectionUpdate [doc_id] [document] [sent]]
  ∧ dom sent = {[ "updated_at" ]}
  ∧ engine E (snd run)
    = snd (coll_update E [doc_id] [document] [sent] (engine E w))
  ∧ fst run
    = match fst (coll_update E [doc_id] [document] [sent] (engine E w)) with
      | inl e => inl e
      | inr _ => inr ()
      end.
Proof.
  intros run sent. subst run sent. rewrite update_document_run.
  cbn [resolved_metadata ticks_after_update]. unfold update_stamp.
  split_and!; [| apply dom_singleton_L | |];
    destruct (coll_update E [doc_id] [document]
                [{[ "updated_at" := utc_isoformat (ticks E w) ]}]
                (engine E w)) as [[e|u] st']; simpl;
    by rewrite ?requests_app.
Qed.
End PointFacts.

(** ** Failures, lengths and generated ids *)

Section StoreClaims.
Context {Distance : Type}.
Variable E : Engine Distance.
Variables utc_timestamp utc_isoformat : nat → string.

(** C8: in each of the five methods, when the one request the method sends
    to the engine raises [e], the method raises the same [e]: it does not
    return normally.  The trace shows what happened in between: the start
    record, that single request (nothing is sent again), the two error
    records of the handler, then the records of the decorators. *)
Theorem engine_failure_logged_and_raised (e : exn) (w : World E) (st' : est E) :
  (∀ (documents : list Text) (metadatas : option (list Metadata))
     (ids : option (list Id)),
     let ids' := resolved_ids utc_timestamp documents ids (ticks E w) in
     let t1 := ticks_after_ids documents ids (ticks E w) in
     let metadatas' := resolved_metadatas utc_isoformat documents metadatas t1 in
     coll_add E documents metadatas' ids' (engine E w) = (inl e, st') →
     add_documents E utc_timestamp utc_isoformat documents metadatas ids w
     = (inl e,
        after E w st' (ticks_after_metadatas documents metadatas t1)
          [CliLog Info "Adding documents to vector store..." (Some "upload")
             [("doc_count", pretty (length documents))];
           Request (CollectionAdd documents metadatas' ids');
           CliLog Error ("Error adding documents: " +:+ exn_str e) None [];
           PyLog Error ("Error adding documents to ChromaDB: " +:+ exn_str e);
           Tracked "add_documents" e;
           Timed "add_documents"]))
  ∧ (∀ (query : Text) (n_results : Z) (metadata_filter : option Metadata),
     coll_query E [query] n_results metadata_filter (engine E w) = (inl e, st') →
     similarity_search E query n_results metadata_filter w
     = (inl e,
        after E w st' (ticks E w)
          [CliLog Info "Performing similarity search..." (Some "search")
             [("query", query); ("n_results", pretty n_results)];
           Request (CollectionQuery [query] n_results metadata_filter);
           CliLog Error ("Error performing similarity search: " +:+ exn_str e)
             None [];
           PyLog Error ("Error performing similarity search: " +:+ exn_str e);
           Tracked "similarity_search" e;
           Timed "similarity_search"]))
  ∧ (∀ ids : list Id,
     coll_delete E ids (engine E w) = (inl e, st') →
     delete_documents E ids w
     = (inl e,
        after E w st' (ticks E w)
          [CliLog Info "Deleting documents from vector store..." (Some "delete")
             [("doc_count", pretty (length ids))];
           Request (CollectionDelete ids);
           CliLog Error ("Error deleting documents: " +:+ exn_str e) None [];
           PyLog Error ("Error deleting documents: " +:+ exn_str e);
           Tracked "delete_documents" e]))
  ∧ (∀ doc_id : Id,
     coll_get E [doc_id] (engine E w) = (inl e, st') →
     get_document E doc_id w
     = (inl e,
        after E w st' (ticks E w)
          [CliLog Info "Retrieving document from vector store..."
             (Some "retrieve") [("doc_id", doc_id)];
           Request (CollectionGet [doc_id]);
           CliLog Error ("Error retrieving document: " +:+ exn_str e) None [];
           PyLog Error ("Error retrieving document " +:+ doc_id +:+ ": "
                        +:+ exn_str e);
           Tracked "get_document" e]))
  ∧ (∀ (doc_id : Id) (document : Text) (metadata : option Metadata),
     let metadata' := resolved_metadata utc_isoformat metadata (ticks E w) in
     coll_update E [doc_id] [document] [metadata'] (engine E w) = (inl e, st') →
     update_document E utc_isoformat doc_id document metadata w
     = (inl e,
        after E w st' (ticks_after_update metadata (ticks E w))
          [CliLog Info "Updating document in vector store..." (Some "update")
             [("doc_id", doc_id)];
           Request (CollectionUpdate [doc_id] [document] [metadata']);
           CliLog Error ("Error updating document: " +:+ exn_str e) None [];
           PyLog Error ("Error updating document " +:+ doc_id +:+ ": "
                        +:+ exn_str e);
           Tracked "update_document" e])).
Proof.
  split_and!.
  - intros documents metadatas ids ids' t1 metadatas' Hadd.
    rewrite add_documents_run. fold ids' t1 metadatas'. by rewrite Hadd.
  - intros query n_results metadata_filter. apply similarity_search_fails.
  - intros ids Hdel. rewrite delete_documents_run. by rewrite Hdel.
  - intros doc_id. apply get_document_fails.
  - intros doc_id document metadata metadata' Hupd.
    rewrite update_document_run. fold metadata'. by rewrite Hupd.
Qed.

(** C1, as the code has it: [add_documents] compares no lengths.  Whatever
    the lengths of [documents], [metadatas] and [ids], it sends the engine
    exactly one [add] request carrying the documents with the supplied (or
    defaulted) metadatas and ids, and its outcome is the engine's: what the
    engine raises is raised again, and when the engine accepts, the ids are
    returned. *)
Theorem add_documents_forwards_any_lengths (documents : list Text)
    (metadatas : option (list Metadata)) (ids : option (list Id))
    (w : World E) :
  let ids' := resolved_ids utc_timestamp documents ids (ticks E w) in
  let t1 := ticks_after_ids documents ids (ticks E w) in
  let metadatas' := resolved_metadatas utc_isoformat documents metadatas t1 in
  let run := add_documents E utc_timestamp utc_isoformat documents metadatas
               ids w in
  requests (trace E (snd run))
  = requests (trace E w) ++ [CollectionAdd documents metadatas' ids']
  ∧ fst run
    = match fst (coll_add E documents metadatas' ids' (engine E w)) with
      | inl e => inl e
      | inr _ => inr ids'
      end
  ∧ engine E (snd run)
    = snd (coll_add E documents metadatas' ids' (engine E w)).
Proof.
  intros ids' t1 metadatas' run. subst run. rewrite add_documents_run.
  fold ids' t1 metadatas'.
  destruct (coll_add E documents metadatas' ids' (engine E w)) as [[e|u] st'];
    simpl; by rewrite requests_app.
Qed.

(** C3: [add_documents] without ids, when the engine accepts the batch,
    returns the ids it generated: as many as there are documents, pairwise
    distinct, the one at position [i] being [doc_<i>_<time>] for the [i]-th
    reading of the clock in the call, and they are the ids the engine
    received next to the documents, position by position. *)
Theorem add_documents_generates_ids (documents : list Text)
    (metadatas : option (list Metadata)) (w : World E) (st' : est E) :
  let ids := stamped (generated_id utc_timestamp) (ticks E w)
               (seq 0 (length documents)) in
  let metadatas' := resolved_metadatas utc_isoformat documents metadatas
                      (length documents + ticks E w) in
  let run := add_documents E utc_timestamp utc_isoformat documents metadatas
               None w in
  coll_add E documents metadatas' ids (engine E w) = (inr (), st') →
  fst run = inr ids
  ∧ length ids = length documents
  ∧ NoDup ids
  ∧ (∀ i : nat, i < length documents →
       ids !! i = Some (generated_id utc_timestamp i (ticks E w + i)))
  ∧ requests (trace E (snd run))
    = requests (trace E w) ++ [CollectionAdd documents metadatas' ids].
Proof.
  intros ids metadatas' run Hadd. subst run. rewrite add_documents_run.
  cbn [resolved_ids ticks_after_ids]. fold ids metadatas'. rewrite Hadd.
  split_and!.
  - done.
  - subst ids. by rewrite stamped_length, length_seq.
  - apply generated_ids_NoDup.
  - intros i Hi. subst ids. rewrite stamped_lookup.
    by rewrite lookup_seq_lt.
  - simpl. by rewrite requests_app.
Qed.
End StoreClaims.

(** ** The in-memory engine keeps the laws *)

Section MemLaws.
Variable metric : Text → Text → Z.
Variable report_distances : bool.
Abbreviation mem := (MemEngine.collection metric report_distances).

Lemma mem_get_law : get_law mem.
Proof.
  intros id st st' r Hg. simpl in *. unfold MemEngine.get in Hg.
  simplify_eq. split; [|done].
  unfold lookup_answer, MemEngine.found. simpl.
  by destruct (_ !! id) as [[text metadata]|].
Qed.

Lemma mem_delete_law : delete_law mem.
Proof.
  intros ids st st' id Hd Hin. simpl in *. unfold MemEngine.delete in Hd.
  simplify_eq. induction ids as [|id' ids IH]; simpl.
  - by apply elem_of_nil in Hin.
  - destruct (decide (id' = id)) as [->|Hne]; [apply lookup_delete_eq|].
    rewrite lookup_delete_ne by done. apply IH.
    apply elem_of_cons in Hin as [->|Hin]; done.
Qed.

End MemLaws.

(** ** The theorems at work on concrete runs *)

Import Demo.

(** A query for ["sett"] over the three documents of [library], nearest
    two, on the engine that reports distances and on the one that has no
    key for them. *)
Lemma search_entries_carry_fields_witness :
  fst (coll_query mem ["sett"] 2 None library)
  = inr {| qr_ids := Val [["a"; "c"]];
           qr_documents := Val [["sets"; "category"]];
           qr_metadatas := Val [[∅; {["year" := "1945"]}]];
           qr_distances := Val [[0; 4]%Z] |}
  ∧ (∃ hits : list (SearchHit Z),
      fst (similarity_search mem "sett" 2 None (start mem library)) = inr hits
      ∧ length hits = 2
      ∧ ∀ (i : nat) (h : SearchHit Z), hits !! i = Some h →
          ["a"; "c"] !! i = Some (hit_id h)
          ∧ ["sets"; "category"] !! i = Some (hit_document h)
          ∧ [∅; {["year" := "1945"]}] !! i = Some (hit_metadata h)
          ∧ hit_distance h = [0; 4]%Z !! i)
  ∧ (∃ hits : list (SearchHit Z),
      fst (similarity_search mem_quiet "sett" 2 None (start mem_quiet library))
      = inr hits
      ∧ length hits = 2
      ∧ ∀ (i : nat) (h : SearchHit Z), hits !! i = Some h →
          ["a"; "c"] !! i = Some (hit_id h)
          ∧ ["sets"; "category"] !! i = Some (hit_document h)
          ∧ [∅; {["year" := "1945"]}] !! i = Some (hit_metadata h)
          ∧ hit_distance h = None).
Proof.
  split; [vm_compute; reflexivity|]. split.
  - apply (search_entries_carry_fields mem "sett" 2 None (start mem library)
             {| qr_ids := Val [["a"; "c"]];
                qr_documents := Val [["sets"; "category"]];
                qr_metadatas := Val [[∅; {["year" := "1945"]}]];
                qr_distances := Val [[0; 4]%Z] |}
             library ["a"; "c"] ["sets"; "category"]
             [∅; {["year" := "1945"]}] (Some [0; 4]%Z) [] [] []);
      try (vm_compute; reflexivity).
    split; [by exists [] | reflexivity].
  - apply (search_entries_carry_fields mem_quiet "sett" 2 None
             (start mem_quiet library)
             {| qr_ids := Val [["a"; "c"]];
                qr_documents := Val [["sets"; "category"]];
                qr_metadatas := Val [[∅; {["year" := "1945"]}]];
                qr_distances := Missing |}
             library ["a"; "c"] ["sets"; "category"]
             [∅; {["year" := "1945"]}] None [] [] []);
      vm_compute; reflexivity.
Defined.

(** C2 fails on the code: an answer that lacks distances by binding the key
    to [None].  The key is there, the subscript is taken, the call raises. *)
Lemma search_raises_on_null_distances :
  fst (coll_query scripted ["q"] 5 None ()) = inr undistanced_answer
  ∧ qr_distances undistanced_answer = Null
  ∧ fst (similarity_search scripted "q" 5 None (start scripted ()))
    = inl TypeError
  ∧ ¬ (∃ hits : list (SearchHit Z),
         fst (similarity_search scripted "q" 5 None (start scripted ()))
         = inr hits).
Proof.
  assert (fst (similarity_search scripted "q" 5 None (start scripted ()))
          = inl TypeError) as Hrun by (vm_compute; reflexivity).
  split_and!; [reflexivity | reflexivity | exact Hrun |].
  intros [hits Hhits]. rewrite Hrun in Hhits. discriminate.
Qed.

Lemma search_sorted_by_distance_witness :
  fst (coll_query mem ["sett"] 2 None library)
  = inr {| qr_ids := Val [["a"; "c"]];
           qr_documents := Val [["sets"; "category"]];
           qr_metadatas := Val [[∅; {["year" := "1945"]}]];
           qr_distances := Val [[0; 4]%Z] |}
  ∧ Sorted Z.le [0; 4]%Z
  ∧ ∃ hits : list (SearchHit Z),
      fst (similarity_search mem "sett" 2 None (start mem library)) = inr hits
      ∧ hit_id <$> hits = ["a"; "c"]
      ∧ hit_distance <$> hits = [Some 0; Some 4]%Z
      ∧ Sorted (hit_le Z.le) hits.
Proof.
  assert (Sorted Z.le [0; 4]%Z) as Hsorted by (repeat constructor; lia).
  split; [vm_compute; reflexivity|]. split; [exact Hsorted|].
  apply (search_sorted_by_distance mem Z.le "sett" 2 None (start mem library)
           {| qr_ids := Val [["a"; "c"]];
              qr_documents := Val [["sets"; "category"]];
              qr_metadatas := Val [[∅; {["year" := "1945"]}]];
              qr_distances := Val [[0; 4]%Z] |}
           library ["a"; "c"] ["sets"; "category"]
           [∅; {["year" := "1945"]}] [0; 4]%Z [] [] [] []);
    try exact Hsorted; vm_compute; reflexivity.
Defined.

Lemma search_empty_collection_witness :
  coll_query mem ["anything"] 5 None ∅
  = (inr {| qr_ids := Val [[]]; qr_documents := Val [[]];
            qr_metadatas := Val [[]]; qr_distances := Val [[]] |}, ∅)
  ∧ fst (similarity_search mem "anything" 5 None (start mem ∅)) = inr [].
Proof.
  assert (coll_query mem ["anything"] 5 None ∅
          = (inr {| qr_ids := Val [[]]; qr_documents := Val [[]];
                    qr_metadatas := Val [[]]; qr_distances := Val [[]] |}, ∅))
    as Hq by (vm_compute; reflexivity).
  split; [exact Hq|].
  by apply (search_empty_collection mem "anything" 5 None (start mem ∅)
              _ _ [] Hq).
Defined.

Lemma get_document_none_or_record_witness :
  get_law mem
  ∧ fst (get_document mem "a" (start mem library))
    = inr (Some {| rec_id := "a"; rec_document := "sets"; rec_metadata := ∅ |})
  ∧ fst (get_document mem "zz" (start mem library)) = inr None.
Proof.
  split; [apply mem_get_law|]. split.
  - exact (get_document_none_or_record mem (mem_get_law _ _) "a"
             (start mem library)).
  - exact (get_document_none_or_record mem (mem_get_law _ _) "zz"
             (start mem library)).
Defined.

(** A run whose outcome is a value, split into the value and the world. *)
Lemma run_returns {A W : Type} (run : Res A * W) (a : A) :
  fst run = inr a → run = (inr a, snd run).
Proof. destruct run as [[e|a'] w']; simpl; intros Ha; by simplify_eq. Defined.

Lemma delete_then_get_absent_witness :
  is_Some (library !! "a")
  ∧ fst (delete_documents mem ["a"] (start mem library)) = inr ()
  ∧ fst (get_document mem "a"
           (snd (delete_documents mem ["a"] (start mem library)))) = inr None.
Proof.
  split; [by eexists; vm_compute|]. split; [by vm_compute|].
  apply (delete_then_get_absent mem (mem_get_law _ _) (mem_delete_law _ _)
           "a" (start mem library)
           (snd (delete_documents mem ["a"] (start mem library)))
           {| gr_ids := Val []; gr_documents := Val [];
              gr_metadatas := Val [] |}
           (engine mem (snd (delete_documents mem ["a"] (start mem library))))).
  - apply run_returns. vm_compute; reflexivity.
  - vm_compute; reflexivity.
Defined.

(** C5 fails on an engine that merges: the year stored with the document
    is still there after [update_document] without metadata. *)
Lemma update_keeps_previous_fields :
  library !! "b" = Some ("graph theory", {["year" := "1736"]})
  ∧ fst (update_document mem iso "b" "graphs" None (start mem library))
    = inr ()
  ∧ fst (get_document mem "b"
           (snd (update_document mem iso "b" "graphs" None (start mem library))))
    = inr (Some {| rec_id := "b"; rec_document := "graphs";
                   rec_metadata :=
                     <["year" := "1736"]> {["updated_at" := iso 0]} |})
  ∧ fst (get_document mem "b"
           (snd (update_document mem iso "b" "graphs" None (start mem library))))
    ≠ inr (Some {| rec_id := "b"; rec_document := "graphs";
                   rec_metadata := {["updated_at" := iso 0]} |}).
Proof.
  assert (fst (get_document mem "b"
                 (snd (update_document mem iso "b" "graphs" None
                         (start mem library))))
          = inr (Some {| rec_id := "b"; rec_document := "graphs";
                         rec_metadata :=
                           <["year" := "1736"]> {["updated_at" := iso 0]} |}))
    as Hget by (vm_compute; reflexivity).
  split_and!; [by vm_compute | by vm_compute | exact Hget |].
  rewrite Hget. intros Heq.
  assert ((<["year" := "1736"]> {["updated_at" := iso 0]} : Metadata)
          !! "year"
          = ({["updated_at" := iso 0]} : Metadata) !! "year") as Hyear
    by congruence.
  vm_compute in Hyear. discriminate.
Qed.

Lemma add_documents_generates_ids_witness :
  fst (coll_add mem ["x"; "yy"] [{["timestamp" := iso 2]}; {["timestamp" := iso 3]}]
         ["doc_0_1700000000.5"; "doc_1_1700000001.5"] ∅) = inr ()
  ∧ fst (add_documents mem stamp iso ["x"; "yy"] None None (start mem ∅))
    = inr ["doc_0_1700000000.5"; "doc_1_1700000001.5"]
  ∧ NoDup (stamped (generated_id stamp) 0 (seq 0 2)).
Proof.
  split; [by vm_compute|].
  destruct (add_documents_generates_ids mem stamp iso ["x"; "yy"] None
              (start mem ∅)
              (snd (coll_add mem ["x"; "yy"]
                      (resolved_metadatas iso ["x"; "yy"] None 2)
                      (stamped (generated_id stamp) 0 (seq 0 2)) ∅)))
    as (Hrun & _ & Hdistinct & _).
  - apply run_returns. vm_compute; reflexivity.
  - split; [|exact Hdistinct]. rewrite Hrun. vm_compute; reflexivity.
Defined.

(** Every method against an engine that cannot be reached. *)
Lemma engine_failure_logged_and_raised_witness :
  fst (add_documents Offline.collection stamp iso ["x"] None None
         (start Offline.collection ())) = inl Offline.unreachable
  ∧ fst (similarity_search Offline.collection "x" 5 None
           (start Offline.collection ())) = inl Offline.unreachable
  ∧ fst (delete_documents Offline.collection ["a"]
           (start Offline.collection ())) = inl Offline.unreachable
  ∧ fst (get_document Offline.collection "a"
           (start Offline.collection ())) = inl Offline.unreachable
  ∧ fst (update_document Offline.collection iso "a" "x" None
           (start Offline.collection ())) = inl Offline.unreachable.
Proof.
  destruct (engine_failure_logged_and_raised Offline.collection stamp iso
              Offline.unreachable (start Offline.collection ()) ())
    as (Hadd & Hsearch & Hdelete & Hget & Hupdate).
  split_and!.
  - by rewrite (Hadd ["x"] None None eq_refl).
  - by rewrite (Hsearch "x" 5%Z None eq_refl).
  - by rewrite (Hdelete ["a"] eq_refl).
  - by rewrite (Hget "a" eq_refl).
  - by rewrite (Hupdate "a" "x" None eq_refl).
Defined.

(** C1 fails on the code: two documents and one id.  The request reaches
    the engine, and what is raised is the engine's exception. *)
Lemma add_documents_mismatch_reaches_engine :
  length ["x"; "yy"] ≠ length ["k"]
  ∧ requests (trace mem (snd mismatched_add))
    = [CollectionAdd ["x"; "yy"]
         [{["timestamp" := iso 0]}; {["timestamp" := iso 1]}] ["k"]]
  ∧ fst mismatched_add = inl (Exn "ValueError" "Unequal lengths for fields")
  ∧ ¬ (∃ e, fst mismatched_add = inl e ∧ exn_class e = "ValidationError"
            ∧ requests (trace mem (snd mismatched_add)) = []).
Proof.
  split_and!.
  - simpl. lia.
  - by vm_compute.
  - by vm_compute.
  - intros (e & _ & _ & Hnone). vm_compute in Hnone. discriminate.
Qed.

(** * Further properties of the store *)

(** ** Complete runs of the two reading methods *)

Section ReadRuns.
Context {Distance : Type}.
Variable E : Engine Distance.

(** [similarity_search] once the engine has answered: the success record is
    written before the answer is formatted, so a formatting failure comes
    after it in the trace. *)
Lemma similarity_search_run (query : Text) (n_results : Z)
    (metadata_filter : option Metadata) (w : World E)
    (r : QueryResult Distance) (st' : est E) :
  coll_query E [query] n_results metadata_filter (engine E w) = (inr r, st') →
  let started :=
    CliLog Info "Performing similarity search..." (Some "search")
      [("query", query); ("n_results", pretty n_results)] in
  let sent := Request (CollectionQuery [query] n_results metadata_filter) in
  let failed e :=
    [CliLog Error ("Error performing similarity search: " +:+ exn_str e)
       None [];
     PyLog Error ("Error performing similarity search: " +:+ exn_str e);
     Tracked "similarity_search" e;
     Timed "similarity_search"] in
  similarity_search E query n_results metadata_filter w
  = match results_found r with
    | inl e => (inl e, after E w st' (ticks E w) ([started; sent] ++ failed e))
    | inr found =>
        let completed :=
          [CliLog Success "Search completed" (Some "search")
             [("results_found", pretty found)];
           PyLog Info ("Performed similarity search for query: " +:+ query)] in
        match format_results r with
        | inl e =>
            (inl e,
             after E w st' (ticks E w)
               ([started; sent] ++ completed ++ failed e))
        | inr hits =>
            (inr hits,
             after E w st' (ticks E w)
               ([started; sent] ++ completed ++ [Timed "similarity_search"]))
        end
    end.
Proof.
  intros Hq started sent failed.
  unfold similarity_search, log_execution_time, handle_exception,
    similarity_search_body, try_except, request, eval, cli_log, py_log, emit,
    raise, after, mbind, mret, M_bind, M_ret.
  cbn [engine ticks trace fst snd]. rewrite Hq.
  cbn [engine ticks trace fst snd].
  destruct (results_found r) as [e|found]; cbn [engine ticks trace fst snd].
  - by rewrite <- !app_assoc.
  - destruct (format_results r) as [e|hits]; cbn [engine ticks trace fst snd];
      by rewrite <- !app_assoc.
Qed.

Ltac run_get :=
  unfold get_document, handle_exception, get_document_body, try_except,
    request, eval, cli_log, py_log, emit, raise, after, truthy_ids, first,
    getitem, subscript, mbind, mret, M_bind, M_ret, Res_bind, Res_ret;
  cbn [engine ticks trace fst snd].

(** X1: when the answer of the engine has no id to show, ['ids'] bound to
    [None] or to the empty list, [get_document] returns [None] and raises
    nothing, whatever the other keys hold (they are not read).  The outcome is
    written to the log at error level, and nothing else happens. *)
Theorem get_document_no_ids (doc_id : Id) (w : World E) (r : GetResult)
    (st' : est E) :
  coll_get E [doc_id] (engine E w) = (inr r, st') →
  gr_ids r = Null ∨ gr_ids r = Val [] →
  get_document E doc_id w
  = (inr None,
     after E w st' (ticks E w)
       [CliLog Info "Retrieving document from vector store..."
          (Some "retrieve") [("doc_id", doc_id)];
        Request (CollectionGet [doc_id]);
        CliLog Error "Document not found" (Some "retrieve") []]).
Proof.
  intros Hg Hids. run_get. rewrite Hg. cbn [engine ticks trace fst snd].
  destruct Hids as [-> | ->]; cbn [engine ticks trace fst snd];
    by rewrite <- !app_assoc.
Qed.

(** X2: when the answer lists ids, [get_document] returns the first id, the
    first text and the first metadata of the answer; the id of the record
    is the one the engine gave, and further entries are dropped. *)
Theorem get_document_first_entry (doc_id : Id) (w : World E) (r : GetResult)
    (st' : est E) (id : Id) (ids : list Id) (text : Text)
    (texts : list Text) (metadata : Metadata) (metadatas : list Metadata) :
  coll_get E [doc_id] (engine E w) = (inr r, st') →
  gr_ids r = Val (id :: ids) →
  gr_documents r = Val (text :: texts) →
  gr_metadatas r = Val (metadata :: metadatas) →
  get_document E doc_id w
  = (inr (Some {| rec_id := id; rec_document := text;
                  rec_metadata := metadata |}),
     after E w st' (ticks E w)
       [CliLog Info "Retrieving document from vector store..."
          (Some "retrieve") [("doc_id", doc_id)];
        Request (CollectionGet [doc_id]);
        CliLog Success "Document retrieved successfully!" (Some "retrieve")
          []]).
Proof.
  intros Hg Hi Hd Hm. run_get. rewrite Hg. cbn [engine ticks trace fst snd].
  rewrite Hi, Hd, Hm. cbn [engine ticks trace fst snd lookup list_lookup].
  by rewrite <- !app_assoc.
Qed.

(** X3: when the answer lists an id but binds ['documents'] to [None] (the
    engine was not asked for texts, or has none), [get_document] raises
    [TypeError]: it does not return a record without text.  The success
    record is already in the log when the failure is logged. *)
Theorem get_document_without_texts_raises (doc_id : Id) (w : World E)
    (r : GetResult) (st' : est E) (id : Id) (ids : list Id) :
  coll_get E [doc_id] (engine E w) = (inr r, st') →
  gr_ids r = Val (id :: ids) →
  gr_documents r = Null →
  get_document E doc_id w
  = (inl TypeError,
     after E w st' (ticks E w)
       [CliLog Info "Retrieving document from vector store..."
          (Some "retrieve") [("doc_id", doc_id)];
        Request (CollectionGet [doc_id]);
        CliLog Success "Document retrieved successfully!" (Some "retrieve")
          [];
        CliLog Error ("Error retrieving document: " +:+ exn_str TypeError)
          None [];
        PyLog Error ("Error retrieving document " +:+ doc_id +:+ ": "
                     +:+ exn_str TypeError);
        Tracked "get_document" TypeError]).
Proof.
  intros Hg Hi Hd. run_get. rewrite Hg. cbn [engine ticks trace fst snd].
  rewrite Hi, Hd. cbn [engine ticks trace fst snd lookup list_lookup].
  by rewrite <- !app_assoc.
Qed.
End ReadRuns.

(** ** What [similarity_search] makes of any answer *)

Section SearchAnswers.
Context {Distance : Type}.
Variable E : Engine Distance.

Lemma collect_inr {A B} (f : A → Res B) (l : list A) (ys : list B) :
  collect f l = inr ys →
  length ys = length l
  ∧ ∀ i x y, l !! i = Some x → ys !! i = Some y → f x = inr y.
Proof.
  revert ys. induction l as [|x l IH]; intros ys Hc; simpl in Hc.
  - simplify_eq. split; [done|]. intros i x y Hx. by destruct i.
  - destruct (f x) as [e|y] eqn:Hfx; simpl in Hc; [done|].
    destruct (collect f l) as [e|ys'] eqn:Hrest; simpl in Hc; [done|].
    unfold mret, Res_ret in Hc. simplify_eq.
    destruct (IH _ eq_refl) as [Hlen Hall].
    split; [simpl; lia|].
    intros [|i] x' y' Hx' Hy'; simplify_eq/=; [done|]. by eapply Hall.
Qed.

Lemma collect_inl {A B} (f : A → Res B) (l : list A) (e : exn) :
  collect f l = inl e → ∃ x, x ∈ l ∧ f x = inl e.
Proof.
  induction l as [|x l IH]; intros Hc; simpl in Hc; [done|].
  destruct (f x) as [e'|y] eqn:Hfx; simpl in Hc.
  - simplify_eq. exists x. split; [apply list_elem_of_here | done].
  - destruct (collect f l) as [e'|ys'] eqn:Hrest; simpl in Hc; [|done].
    simplify_eq. destruct (IH eq_refl) as (x' & Hx' & Hfx').
    exists x'. split; [by apply list_elem_of_further | done].
Qed.

Lemma cell_inr {A} (k : string) (s : slot (list (list A))) (i : nat) (x : A) :
  cell k s i = inr x → ∃ row rest, s = Val (row :: rest) ∧ row !! i = Some x.
Proof.
  unfold cell, item. destruct s as [| |[|row rest]]; simpl; try done.
  destruct (row !! i) as [x'|] eqn:Hx; simpl; [|done].
  intros ?; simplify_eq. by exists row, rest.
Qed.

Lemma results_found_inr (r : QueryResult Distance) (n : nat) :
  results_found r = inr n →
  ∃ ids rest, qr_ids r = Val (ids :: rest) ∧ length ids = n.
Proof.
  unfold results_found, mret, Res_ret.
  destruct (qr_ids r) as [| |[|ids rest]]; simpl; try done.
  intros ?; simplify_eq. by exists ids, rest.
Qed.

Lemma format_entry_inr (r : QueryResult Distance) (i : nat)
    (h : SearchHit Distance) :
  format_entry r i = inr h →
  cell "ids" (qr_ids r) i = inr (hit_id h)
  ∧ cell "documents" (qr_documents r) i = inr (hit_document h)
  ∧ cell "metadatas" (qr_metadatas r) i = inr (hit_metadata h)
  ∧ (if contains_key (qr_distances r)
     then ∃ d, cell "distances" (qr_distances r) i = inr d
               ∧ hit_distance h = Some d
     else hit_distance h = None).
Proof.
  unfold format_entry. intros Hh.
  destruct (cell "ids" (qr_ids r) i) as [?|id]; simpl in Hh; [done|].
  destruct (cell "documents" (qr_documents r) i) as [?|document];
    simpl in Hh; [done|].
  destruct (cell "metadatas" (qr_metadatas r) i) as [?|metadata];
    simpl in Hh; [done|].
  destruct (contains_key (qr_distances r)).
  - destruct (cell "distances" (qr_distances r) i) as [?|d]; simpl in Hh;
      [done|].
    unfold mret, Res_ret in Hh. simplify_eq/=. split_and!; [done..|].
    by exists d.
  - simpl in Hh. unfold mret, Res_ret in Hh. by simplify_eq/=.
Qed.

(** X4: every list [similarity_search] returns is read off the first row of
    the answer: it has one entry per id of that row, in the order of the
    row, and the entry at position [i] holds what the rows of ids, texts
    and metadatas hold at position [i]; its distance is [None] when the
    answer has no key ['distances'] and the distance at position [i]
    otherwise.  Nothing is made up, dropped or reordered. *)
Theorem similarity_search_reads_first_row (query : Text) (n_results : Z)
    (metadata_filter : option Metadata) (w : World E)
    (r : QueryResult Distance) (st' : est E)
    (hits : list (SearchHit Distance)) :
  coll_query E [query] n_results metadata_filter (engine E w) = (inr r, st') →
  fst (similarity_search E query n_results metadata_filter w) = inr hits →
  ∃ (ids : list Id) (rest : list (list Id)),
    qr_ids r = Val (ids :: rest)
    ∧ hit_id <$> hits = ids
    ∧ ∀ (i : nat) (h : SearchHit Distance), hits !! i = Some h →
        (∃ documents rest2, qr_documents r = Val (documents :: rest2)
                            ∧ documents !! i = Some (hit_document h))
        ∧ (∃ metadatas rest3, qr_metadatas r = Val (metadatas :: rest3)
                              ∧ metadatas !! i = Some (hit_metadata h))
        ∧ ((qr_distances r = Missing ∧ hit_distance h = None)
           ∨ (∃ distances rest4 d,
                qr_distances r = Val (distances :: rest4)
                ∧ distances !! i = Some d ∧ hit_distance h = Some d)).
Proof.
  intros Hq Hrun. rewrite (similarity_search_answer _ _ _ _ _ _ _ Hq) in Hrun.
  unfold format_results in Hrun.
  destruct (results_found r) as [e|n] eqn:Hn; simpl in Hrun; [done|].
  apply results_found_inr in Hn as (ids & rest & Hids & <-).
  apply collect_inr in Hrun as [Hlen Hall]. rewrite length_seq in Hlen.
  assert (∀ i h, hits !! i = Some h → format_entry r i = inr h) as Hentry.
  { intros i h Hh. apply (Hall i i h); [|done].
    apply lookup_seq. split; [done|]. apply lookup_lt_Some in Hh. lia. }
  exists ids, rest. split_and!; [done| |].
  - apply list_eq. intros i. rewrite list_lookup_fmap.
    destruct (hits !! i) as [h|] eqn:Hh; simpl.
    + apply Hentry, format_entry_inr in Hh as (Hi & _).
      apply cell_inr in Hi as (row & rest' & Hrow & Hi).
      rewrite Hids in Hrow. by simplify_eq.
    + symmetry. apply lookup_ge_None. apply lookup_ge_None in Hh. lia.
  - intros i h Hh.
    apply Hentry, format_entry_inr in Hh as (_ & Hd & Hm & Hx).
    apply cell_inr in Hd as (documents & rest2 & Hd & Hdi).
    apply cell_inr in Hm as (metadatas & rest3 & Hm & Hmi).
    split_and!; [by eauto..|].
    destruct (qr_distances r) as [| |rows] eqn:Hkey; simpl in Hx.
    + by left.
    + destruct Hx as (d & Hx & _). done.
    + destruct Hx as (d & Hx & Hhd).
      apply cell_inr in Hx as (distances & rest4 & Hx & Hxi).
      right. by exists distances, rest4, d.
Qed.
(** With every row in place, an entry can only fail on a position past the
    end of a row. *)
Lemma format_entry_inl (r : QueryResult Distance) (i : nat) (e : exn)
    (ids : list Id) (documents : list Text) (metadatas : list Metadata)
    rest1 rest2 rest3 :
  qr_ids r = Val (ids :: rest1) →
  qr_documents r = Val (documents :: rest2) →
  qr_metadatas r = Val (metadatas :: rest3) →
  qr_distances r = Missing
  ∨ (∃ distances rest4, qr_distances r = Val (distances :: rest4)) →
  format_entry r i = inl e → e = IndexError.
Proof.
  intros Hi Hd Hm Hx. unfold format_entry, cell, item.
  rewrite Hi, Hd, Hm. simpl.
  destruct (ids !! i); simpl; [|by intros ?; simplify_eq].
  destruct (documents !! i); simpl; [|by intros ?; simplify_eq].
  destruct (metadatas !! i); simpl; [|by intros ?; simplify_eq].
  destruct Hx as [-> | (distances & rest4 & ->)]; simpl; [done|].
  destruct (distances !! i); simpl; [done|]. by intros ?; simplify_eq.
Qed.

(** X5: when the answer has its rows of ids, texts and metadatas but the
    row of texts or the row of metadatas is shorter than the row of ids,
    [similarity_search] raises [IndexError]: it returns no partial list. *)
Theorem similarity_search_short_row_raises (query : Text) (n_results : Z)
    (metadata_filter : option Metadata) (w : World E)
    (r : QueryResult Distance) (st' : est E)
    (ids : list Id) (documents : list Text) (metadatas : list Metadata)
    (rest1 : list (list Id)) (rest2 : list (list Text))
    (rest3 : list (list Metadata)) :
  coll_query E [query] n_results metadata_filter (engine E w) = (inr r, st') →
  qr_ids r = Val (ids :: rest1) →
  qr_documents r = Val (documents :: rest2) →
  qr_metadatas r = Val (metadatas :: rest3) →
  qr_distances r = Missing
  ∨ (∃ distances rest4, qr_distances r = Val (distances :: rest4)) →
  length documents < length ids ∨ length metadatas < length ids →
  fst (similarity_search E query n_results metadata_filter w) = inl IndexError.
Proof.
  intros Hq Hi Hd Hm Hx Hshort.
  rewrite (similarity_search_answer _ _ _ _ _ _ _ Hq). unfold format_results.
  rewrite (results_found_val _ _ _ Hi). simpl.
  destruct (collect (format_entry r) (seq 0 (length ids))) as [e|hits] eqn:Hc.
  - apply collect_inl in Hc as (i & _ & Hfail).
    by rewrite (format_entry_inl _ _ _ _ _ _ _ _ _ Hi Hd Hm Hx Hfail).
  - exfalso. apply collect_inr in Hc as [Hlen Hall].
    rewrite length_seq in Hlen.
    assert (∃ i, i < length ids
                 ∧ (documents !! i = None ∨ metadatas !! i = None))
      as (i & Hlt & Hnone).
    { destruct Hshort as [Hs|Hs].
      - exists (length documents). split; [done|]. left.
        by apply lookup_ge_None.
      - exists (length metadatas). split; [done|]. right.
        by apply lookup_ge_None. }
    destruct (lookup_lt_is_Some_2 hits i) as [h Hh]; [lia|].
    assert (format_entry r i = inr h) as Hentry.
    { apply (Hall i i h); [|done]. apply lookup_seq. split; [done|lia]. }
    apply format_entry_inr in Hentry as (_ & Hcd & Hcm & _).
    apply cell_inr in Hcd as (row2 & ? & Hrow2 & Hdi).
    apply cell_inr in Hcm as (row3 & ? & Hrow3 & Hmi).
    rewrite Hd in Hrow2. rewrite Hm in Hrow3. simplify_eq.
    destruct Hnone as [Hnone|Hnone]; congruence.
Qed.

(** X6: when the answer lists an id with its text and metadata but binds
    ['distances'] to [None], [similarity_search] raises [TypeError]; only
    an absent key gives entries without distance.  The search is reported
    as completed before the failure is logged and raised. *)
Theorem similarity_search_null_distances_raises (query : Text)
    (n_results : Z) (metadata_filter : option Metadata) (w : World E)
    (r : QueryResult Distance) (st' : est E)
    (id : Id) (ids : list Id) (document : Text) (documents : list Text)
    (metadata : Metadata) (metadatas : list Metadata)
    (rest1 : list (list Id)) (rest2 : list (list Text))
    (rest3 : list (list Metadata)) :
  coll_query E [query] n_results metadata_filter (engine E w) = (inr r, st') →
  qr_ids r = Val ((id :: ids) :: rest1) →
  qr_documents r = Val ((document :: documents) :: rest2) →
  qr_metadatas r = Val ((metadata :: metadatas) :: rest3) →
  qr_distances r = Null →
  similarity_search E query n_results metadata_filter w
  = (inl TypeError,
     after E w st' (ticks E w)
       [CliLog Info "Performing similarity search..." (Some "search")
          [("query", query); ("n_results", pretty n_results)];
        Request (CollectionQuery [query] n_results metadata_filter);
        CliLog Success "Search completed" (Some "search")
          [("results_found", pretty (S (length ids)))];
        PyLog Info ("Performed similarity search for query: " +:+ query);
        CliLog Error ("Error performing similarity search: "
                      +:+ exn_str TypeError) None [];
        PyLog Error ("Error performing similarity search: "
                     +:+ exn_str TypeError);
        Tracked "similarity_search" TypeError;
        Timed "similarity_search"]).
Proof.
  intros Hq Hi Hd Hm Hx. rewrite (similarity_search_run E _ _ _ _ _ _ Hq).
  rewrite (results_found_val _ _ _ Hi).
  by rewrite (format_results_null_distances _ _ _ _ _ _ _ _ _ _ Hi Hd Hm Hx).
Qed.
End SearchAnswers.

(** ** One request per call *)

Section Frames.
Context {Distance : Type}.
Variable E : Engine Distance.
Variable utc_isoformat : nat → string.

Lemma similarity_search_frame (query : Text) (n_results : Z)
    (metadata_filter : option Metadata) (w : World E) :
  let run := similarity_search E query n_results metadata_filter w in
  requests (trace E (snd run))
  = requests (trace E w) ++ [CollectionQuery [query] n_results metadata_filter]
  ∧ engine E (snd run)
    = snd (coll_query E [query] n_results metadata_filter (engine E w))
  ∧ ticks E (snd run) = ticks E w.
Proof.
  intros run. subst run.
  destruct (coll_query E [query] n_results metadata_filter (engine E w))
    as [[e|r] st'] eqn:Hq.
  - rewrite (similarity_search_fails E _ _ _ _ _ _ Hq). simpl.
    by rewrite requests_app.
  - rewrite (similarity_search_run E _ _ _ _ _ _ Hq).
    destruct (results_found r) as [e|found];
      [|destruct (format_results r) as [e|hits]];
      simpl; by rewrite requests_app.
Qed.

Lemma get_document_frame (doc_id : Id) (w : World E) :
  let run := get_document E doc_id w in
  requests (trace E (snd run))
  = requests (trace E w) ++ [CollectionGet [doc_id]]
  ∧ engine E (snd run) = snd (coll_get E [doc_id] (engine E w))
  ∧ ticks E (snd run) = ticks E w.
Proof.
  intros run. subst run.
  unfold get_document, handle_exception, get_document_body, try_except,
    request, eval, cli_log, py_log, emit, raise, truthy_ids, first,
    getitem, subscript, mbind, mret, M_bind, M_ret, Res_bind, Res_ret.
  cbn [engine ticks trace fst snd].
  destruct (coll_get E [doc_id] (engine E w)) as [[e|r] st'];
    cbn [engine ticks trace fst snd].
  { by rewrite <- ?app_assoc, requests_app. }
  destruct (gr_ids r) as [| |[|id ids]]; cbn [engine ticks trace fst snd];
    try by rewrite <- ?app_assoc, requests_app.
  destruct (gr_documents r) as [| |[|text texts]];
    cbn [engine ticks trace fst snd lookup list_lookup];
    try by rewrite <- ?app_assoc, requests_app.
  destruct (gr_metadatas r) as [| |[|metadata metadatas]];
    cbn [engine ticks trace fst snd lookup list_lookup];
    by rewrite <- ?app_assoc, requests_app.
Qed.

(** X7: a call of [similarity_search], [delete_documents], [get_document]
    or [update_document] sends the engine exactly one request, the one of
    its own kind with the arguments of the call, whatever the outcome: a
    value, a failure of the engine, or a failure while the answer is read.
    The engine is left as that request left it.  The clock is read once by
    [update_document] without metadata and not at all otherwise. *)
Theorem one_request_per_call (w : World E) :
  (∀ (query : Text) (n_results : Z) (metadata_filter : option Metadata),
     let run := similarity_search E query n_results metadata_filter w in
     requests (trace E (snd run))
     = requests (trace E w)
       ++ [CollectionQuery [query] n_results metadata_filter]
     ∧ engine E (snd run)
       = snd (coll_query E [query] n_results metadata_filter (engine E w))
     ∧ ticks E (snd run) = ticks E w)
  ∧ (∀ ids : list Id,
     let run := delete_documents E ids w in
     requests (trace E (snd run))
     = requests (trace E w) ++ [CollectionDelete ids]
     ∧ engine E (snd run) = snd (coll_delete E ids (engine E w))
     ∧ ticks E (snd run) = ticks E w)
  ∧ (∀ doc_id : Id,
     let run := get_document E doc_id w in
     requests (trace E (snd run))
     = requests (trace E w) ++ [CollectionGet [doc_id]]
     ∧ engine E (snd run) = snd (coll_get E [doc_id] (engine E w))
     ∧ ticks E (snd run) = ticks E w)
  ∧ (∀ (doc_id : Id) (document : Text) (metadata : option Metadata),
     let run := update_document E utc_isoformat doc_id document metadata w in
     let metadata' := resolved_metadata utc_isoformat metadata (ticks E w) in
     requests (trace E (snd run))
     = requests (trace E w)
       ++ [CollectionUpdate [doc_id] [document] [metadata']]
     ∧ engine E (snd run)
       = snd (coll_update E [doc_id] [document] [metadata'] (engine E w))
     ∧ ticks E (snd run) = ticks_after_update metadata (ticks E w)).
Proof.
  split_and!.
  - intros query n_results metadata_filter. apply similarity_search_frame.
  - intros ids run. subst run. rewrite delete_documents_run.
    destruct (coll_delete E ids (engine E w)) as [[e|u] st']; simpl;
      by rewrite requests_app.
  - intros doc_id. apply get_document_frame.
  - intros doc_id document metadata run metadata'. subst run metadata'.
    rewrite update_document_run.
    destruct (coll_update E [doc_id] [document]
                [resolved_metadata utc_isoformat metadata (ticks E w)]
                (engine E w)) as [[e|u] st']; simpl;
      by rewrite requests_app.
Qed.
End Frames.

(** ** Defaults of [add_documents] and what a lookup finds afterwards *)

Section Composition.
Context {Distance : Type}.
Variable E : Engine Distance.
Variables utc_timestamp utc_isoformat : nat → string.

Lemma add_documents_returns (documents : list Text)
    (metadatas : option (list Metadata)) (ids : option (list Id))
    (w w' : World E) (returned : list Id) :
  add_documents E utc_timestamp utc_isoformat documents metadatas ids w
  = (inr returned, w') →
  let ids' := resolved_ids utc_timestamp documents ids (ticks E w) in
  let t1 := ticks_after_ids documents ids (ticks E w) in
  let metadatas' := resolved_metadatas utc_isoformat documents metadatas t1 in
  returned = ids'
  ∧ coll_add E documents metadatas' ids' (engine E w) = (inr (), engine E w').
Proof.
  intros Hrun ids' t1 metadatas'. rewrite add_documents_run in Hrun.
  fold ids' t1 metadatas' in Hrun.
  destruct (coll_add E documents metadatas' ids' (engine E w))
    as [[e|[]] st']; by simplify_eq.
Qed.

Lemma stamped_by_position {A B} (g : nat → B) (t : nat) (l : list A) :
  stamped (λ _ k, g k) t l = (λ i, g (t + i)) <$> seq 0 (length l).
Proof.
  apply list_eq. intros i. rewrite stamped_lookup, list_lookup_fmap.
  destruct (l !! i) as [x|] eqn:Hx; simpl.
  - apply lookup_lt_Some in Hx. by rewrite lookup_seq_lt.
  - apply lookup_ge_None in Hx. by rewrite lookup_seq_ge.
Qed.

(** X8: without metadatas, [add_documents] sends the engine one mapping per
    document, and the mapping at position [i] has the single key
    ["timestamp"], bound to the reading of the clock number [i] after the
    readings spent on the ids.  The clock is read once per document for
    this. *)
Theorem add_documents_default_metadatas (documents : list Text)
    (ids : option (list Id)) (w : World E) :
  let run := add_documents E utc_timestamp utc_isoformat documents None ids w in
  let t1 := ticks_after_ids documents ids (ticks E w) in
  requests (trace E (snd run))
  = requests (trace E w)
    ++ [CollectionAdd documents
          ((λ i, {[ "timestamp" := utc_isoformat (t1 + i) ]})
             <$> seq 0 (length documents))
          (resolved_ids utc_timestamp documents ids (ticks E w))]
  ∧ ticks E (snd run) = length documents + t1.
Proof.
  intros run t1. subst run. rewrite add_documents_run. fold t1.
  cbn [resolved_metadatas ticks_after_metadatas].
  rewrite (stamped_by_position (default_metadata utc_isoformat)).
  unfold default_metadata.
  match goal with
  | |- context [coll_add E ?a ?b ?c ?d] =>
      destruct (coll_add E a b c d) as [[e|u] st']
  end; simpl; by rewrite requests_app.
Qed.

(** X9: an empty batch is not turned away by the store: [add_documents([])]
    without ids and metadatas reads no clock, sends the engine an add
    request with three empty sequences, and gives back what the engine
    decides, the empty list of ids when the engine accepts. *)
Theorem add_documents_empty_batch (w : World E) :
  let run := add_documents E utc_timestamp utc_isoformat [] None None w in
  requests (trace E (snd run))
  = requests (trace E w) ++ [CollectionAdd [] [] []]
  ∧ ticks E (snd run) = ticks E w
  ∧ fst run = match fst (coll_add E [] [] [] (engine E w)) with
              | inl e => inl e
              | inr _ => inr []
              end.
Proof.
  intros run. subst run. rewrite add_documents_run. simpl.
  destruct (coll_add E [] [] [] (engine E w)) as [[e|u] st']; simpl;
    by rewrite requests_app.
Qed.

(** X10: [add_documents] with ids and metadatas, then [get_document].  Over
    an engine that stores what it is sent and whose lookups read the
    collection: when the call has returned, it returned the ids it was
    given, and for every position whose id is new to the collection, a
    lookup of that id returns the text and the metadata given at that
    position.  The ids of the batch must be distinct. *)
Theorem add_then_get_supplied (Hget : get_law E) (Hadd : add_law E)
    (documents : list Text) (metadatas : list Metadata) (ids : list Id)
    (w w' : World E) (returned : list Id)
    (i : nat) (id : Id) (text : Text) (metadata : Metadata)
    (r : GetResult) (st'' : est E) :
  add_documents E utc_timestamp utc_isoformat documents (Some metadatas)
    (Some ids) w = (inr returned, w') →
  NoDup ids →
  ids !! i = Some id → documents !! i = Some text →
  metadatas !! i = Some metadata →
  contents E (engine E w) !! id = None →
  coll_get E [id] (engine E w') = (inr r, st'') →
  returned = ids
  ∧ fst (get_document E id w')
    = inr (Some {| rec_id := id; rec_document := text;
                   rec_metadata := metadata |}).
Proof.
  intros Hrun Hdistinct Hid Htext Hmeta Hnew Hg.
  apply add_documents_returns in Hrun as [-> Hsent]. simpl in Hsent.
  split; [done|].
  pose proof (Hadd _ _ _ _ _ _ _ _ _ Hsent Hdistinct Hid Htext Hmeta Hnew)
    as Hstored.
  destruct (Hget _ _ _ _ Hg) as [-> _].
  rewrite (get_document_lookup _ _ _ _ _ Hg). unfold record_of.
  by rewrite Hstored.
Qed.

(** X11: [add_documents] without ids and metadatas, then [get_document].
    Over the same engines: when the call has returned, a lookup of the id
    returned at position [i], if that id is new to the collection, returns
    the text given at position [i] with the default metadata of that
    position. *)
Theorem add_then_get_generated (Hget : get_law E) (Hadd : add_law E)
    (documents : list Text) (w w' : World E) (returned : list Id)
    (i : nat) (id : Id) (text : Text) (r : GetResult) (st'' : est E) :
  add_documents E utc_timestamp utc_isoformat documents None None w
  = (inr returned, w') →
  returned !! i = Some id → documents !! i = Some text →
  contents E (engine E w) !! id = None →
  coll_get E [id] (engine E w') = (inr r, st'') →
  id = generated_id utc_timestamp i (ticks E w + i)
  ∧ fst (get_document E id w')
    = inr (Some {| rec_id := id; rec_document := text;
                   rec_metadata :=
                     {[ "timestamp" :=
                          utc_isoformat (length documents + ticks E w + i) ]}
                |}).
Proof.
  intros Hrun Hid Htext Hnew Hg.
  apply add_documents_returns in Hrun as [-> Hsent].
  cbn [resolved_ids ticks_after_ids resolved_metadatas] in *.
  assert (i < length documents) as Hi by (by eapply lookup_lt_Some).
  assert (id = generated_id utc_timestamp i (ticks E w + i)) as Hgen.
  { rewrite stamped_lookup, lookup_seq_lt in Hid by done.
    simpl in Hid. by simplify_eq. }
  split; [done|].
  assert (stamped (λ _ k, default_metadata utc_isoformat k)
            (length documents + ticks E w) documents !! i
          = Some {[ "timestamp" :=
                      utc_isoformat (length documents + ticks E w + i) ]})
    as Hmeta by (by rewrite stamped_lookup, Htext).
  pose proof (Hadd _ _ _ _ _ _ _ _ _ Hsent
                (generated_ids_NoDup utc_timestamp _ _) Hid Htext Hmeta Hnew)
    as Hstored.
  destruct (Hget _ _ _ _ Hg) as [-> _].
  rewrite (get_document_lookup _ _ _ _ _ Hg). unfold record_of.
  by rewrite Hstored.
Qed.

(** X12: [update_document] with a metadata mapping sends that mapping as it
    is, the empty mapping included (only [None] is replaced by the default),
    in one update request with the new text, and does not read the clock.
    The call returns when the engine accepts and raises what the engine
    raised otherwise. *)
Theorem update_document_forwards_mapping (doc_id : Id) (document : Text)
    (metadata : Metadata) (w : World E) :
  let run := update_document E utc_isoformat doc_id document (Some metadata)
               w in
  requests (trace E (snd run))
  = requests (trace E w) ++ [CollectionUpdate [doc_id] [document] [metadata]]
  ∧ ticks E (snd run) = ticks E w
  ∧ fst run
    = match fst (coll_update E [doc_id] [document] [metadata] (engine E w))
      with
      | inl e => inl e
      | inr _ => inr ()
      end.
Proof.
  intros run. subst run. rewrite update_document_run.
  cbn [resolved_metadata ticks_after_update].
  destruct (coll_update E [doc_id] [document] [metadata] (engine E w))
    as [[e|u] st']; simpl; by rewrite requests_app.
Qed.

(** X13: [delete_documents] of a batch, then [get_document].  Over an
    engine whose delete removes the ids and whose lookups read the
    collection: when the call has returned, a lookup of any id of the batch
    returns [None]. *)
Theorem delete_batch_then_get_absent (Hget : get_law E)
    (Hdelete : delete_law E) (ids : list Id) (doc_id : Id)
    (w w' : World E) (r : GetResult) (st'' : est E) :
  delete_documents E ids w = (inr (), w') →
  doc_id ∈ ids →
  coll_get E [doc_id] (engine E w') = (inr r, st'') →
  fst (get_document E doc_id w') = inr None.
Proof.
  intros Hdel Hin Hg. apply delete_documents_returns in Hdel.
  pose proof (Hdelete _ _ _ _ Hdel Hin) as Hgone.
  destruct (Hget _ _ _ _ Hg) as [-> _].
  rewrite (get_document_lookup _ _ _ _ _ Hg). unfold record_of.
  by rewrite Hgone.
Qed.

(** X14: a generated id tells its position and the rendering of its time:
    two generated ids are equal exactly when they are made at the same
    position from readings of the clock that render alike.  So the ids of
    one call differ, and the ids of two calls meet at a position exactly
    when the clock renders the two readings the same. *)
Theorem generated_id_decodes (i j t t' : nat) :
  generated_id utc_timestamp i t = generated_id utc_timestamp j t'
  ↔ i = j ∧ utc_timestamp t = utc_timestamp t'.
Proof.
  split.
  - intros Heq. assert (i = j) as -> by (by eapply generated_id_inj).
    split; [done|]. unfold generated_id in Heq.
    apply (inj (String.app "doc_")) in Heq.
    apply (inj (String.app (pretty j))) in Heq.
    by apply (inj (String.app "_")) in Heq.
  - intros [-> Hts]. unfold generated_id. by rewrite Hts.
Qed.
End Composition.

(** ** The in-memory engine stores what it is sent *)

Section MemAdd.
Variable metric : Text → Text → Z.
Variable report_distances : bool.

Lemma store_new_kept (rows : list (Id * Text * Metadata))
    (st : gmap Id (Text * Metadata)) (id : Id) (v : Text * Metadata) :
  st !! id = Some v → foldl MemEngine.store_new st rows !! id = Some v.
Proof.
  revert st. induction rows as [|[[id' text'] metadata'] rows IH];
    intros st Hv; simpl; [done|].
  apply IH. destruct (st !! id') eqn:Hid'; [done|].
  rewrite lookup_insert_ne; [done|]. congruence.
Qed.

Lemma store_new_fresh (rows : list (Id * Text * Metadata))
    (st : gmap Id (Text * Metadata)) (i : nat) (id : Id) (text : Text)
    (metadata : Metadata) :
  NoDup (rows.*1.*1) → rows !! i = Some (id, text, metadata) →
  st !! id = None →
  foldl MemEngine.store_new st rows !! id = Some (text, metadata).
Proof.
  revert st i. induction rows as [|[[id' text'] metadata'] rows IH];
    intros st i Hdistinct Hrow Hnew; [done|].
  simpl in Hdistinct. apply NoDup_cons in Hdistinct as [Hhead Hdistinct].
  destruct i as [|i]; simpl in *.
  - simplify_eq. rewrite Hnew. apply store_new_kept, lookup_insert_eq.
  - assert (id' ≠ id) as Hne.
    { intros ->. apply Hhead. apply list_elem_of_lookup. exists i.
      by rewrite !list_lookup_fmap, Hrow. }
    apply (IH _ i); [done..|].
    destruct (st !! id'); [done|]. by rewrite lookup_insert_ne.
Qed.

Lemma mem_add_law : add_law (MemEngine.collection metric report_distances).
Proof.
  intros documents metadatas ids st st' i id text metadata Hadd Hdistinct
    Hid Htext Hmeta Hnew. simpl in *. unfold MemEngine.add in Hadd.
  case_bool_decide as Hlen; [|done]. case_bool_decide; [|done].
  destruct Hlen as [Hld Hlm]. simplify_eq.
  apply (store_new_fresh _ _ i); [| |done].
  - rewrite !fst_zip by (rewrite ?length_zip; lia). done.
  - apply lookup_zip_with_Some. exists (id, text), metadata.
    split_and!; [done| |done].
    apply lookup_zip_with_Some. by exists id, text.
Qed.
End MemAdd.

(** ** The further properties on concrete runs *)

Lemma get_document_no_ids_witness :
  fst (coll_get mem ["zz"] library)
  = inr {| gr_ids := Val []; gr_documents := Val []; gr_metadatas := Val [] |}
  ∧ fst (get_document mem "zz" (start mem library)) = inr None.
Proof.
  split; [vm_compute; reflexivity|].
  rewrite (get_document_no_ids mem "zz" (start mem library)
             {| gr_ids := Val []; gr_documents := Val [];
                gr_metadatas := Val [] |} library);
    [reflexivity | vm_compute; reflexivity | by right].
Defined.

Lemma get_document_first_entry_witness :
  fst (coll_get mem ["b"] library)
  = inr {| gr_ids := Val ["b"]; gr_documents := Val ["graph theory"];
           gr_metadatas := Val [{["year" := "1736"]}] |}
  ∧ fst (get_document mem "b" (start mem library))
    = inr (Some {| rec_id := "b"; rec_document := "graph theory";
                   rec_metadata := {["year" := "1736"]} |}).
Proof.
  split; [vm_compute; reflexivity|].
  rewrite (get_document_first_entry mem "b" (start mem library)
             {| gr_ids := Val ["b"]; gr_documents := Val ["graph theory"];
                gr_metadatas := Val [{["year" := "1736"]}] |} library
             "b" [] "graph theory" [] {["year" := "1736"]} []);
    [reflexivity | vm_compute; reflexivity | reflexivity..].
Defined.

Lemma get_document_without_texts_raises_witness :
  fst (coll_get scripted ["a"] ()) = inr ids_only
  ∧ fst (get_document scripted "a" (start scripted ())) = inl TypeError.
Proof.
  split; [reflexivity|].
  by rewrite (get_document_without_texts_raises scripted "a"
                (start scripted ()) ids_only () "a" [] eq_refl eq_refl eq_refl).
Defined.

Lemma similarity_search_reads_first_row_witness :
  fst (similarity_search mem "sett" 2 None (start mem library))
  = inr [ {| hit_id := "a"; hit_document := "sets"; hit_metadata := ∅;
             hit_distance := Some 0%Z |};
          {| hit_id := "c"; hit_document := "category";
             hit_metadata := {["year" := "1945"]};
             hit_distance := Some 4%Z |} ]
  ∧ ∃ rest, qr_ids {| qr_ids := Val [["a"; "c"]];
                      qr_documents := Val [["sets"; "category"]];
                      qr_metadatas := Val [[∅; {["year" := "1945"]}]];
                      qr_distances := Val [[0; 4]%Z] |}
            = Val (["a"; "c"] :: rest).
Proof.
  assert (fst (similarity_search mem "sett" 2 None (start mem library))
          = inr [ {| hit_id := "a"; hit_document := "sets"; hit_metadata := ∅;
                     hit_distance := Some 0%Z |};
                  {| hit_id := "c"; hit_document := "category";
                     hit_metadata := {["year" := "1945"]};
                     hit_distance := Some 4%Z |} ]) as Hrun
    by (vm_compute; reflexivity).
  split; [exact Hrun|].
  assert (coll_query mem ["sett"] 2 None (engine mem (start mem library))
          = (inr {| qr_ids := Val [["a"; "c"]];
                    qr_documents := Val [["sets"; "category"]];
                    qr_metadatas := Val [[∅; {["year" := "1945"]}]];
                    qr_distances := Val [[0; 4]%Z] |}, library)) as Hq
    by (vm_compute; reflexivity).
  destruct (similarity_search_reads_first_row mem "sett" 2 None
              (start mem library) _ _ _ Hq Hrun)
    as (ids & rest & Hids & Hmap & _).
  exists rest. rewrite Hids. by rewrite <- Hmap.
Defined.

Lemma similarity_search_short_row_raises_witness :
  length ["sets"] < length ["a"; "b"]
  ∧ fst (similarity_search scripted_short "q" 5 None (start scripted_short ()))
    = inl IndexError.
Proof.
  split; [simpl; lia|].
  apply (similarity_search_short_row_raises scripted_short "q" 5 None
           (start scripted_short ()) short_answer ()
           ["a"; "b"] ["sets"] [∅; ∅] [] [] []); try reflexivity.
  - right. by exists [0; 1]%Z, [].
  - left. simpl. lia.
Defined.

Lemma similarity_search_null_distances_raises_witness :
  qr_distances undistanced_answer = Null
  ∧ fst (similarity_search scripted "q" 5 None (start scripted ()))
    = inl TypeError.
Proof.
  split; [reflexivity|].
  by rewrite (similarity_search_null_distances_raises scripted "q" 5 None
                (start scripted ()) undistanced_answer ()
                "a" ["b"] "sets" ["graph theory"] ∅ [∅] [] [] []
                eq_refl eq_refl eq_refl eq_refl eq_refl).
Defined.

Lemma add_then_get_supplied_witness :
  library !! "n" = None
  ∧ fst (get_document mem "n"
           (snd (add_documents mem stamp iso ["new text"]
                   (Some [{["lang" := "en"]}]) (Some ["n"])
                   (start mem library))))
    = inr (Some {| rec_id := "n"; rec_document := "new text";
                   rec_metadata := {["lang" := "en"]} |}).
Proof.
  split; [by vm_compute|].
  apply (add_then_get_supplied mem stamp iso (mem_get_law _ _)
           (mem_add_law _ _) ["new text"] [{["lang" := "en"]}] ["n"]
           (start mem library)
           (snd (add_documents mem stamp iso ["new text"]
                   (Some [{["lang" := "en"]}]) (Some ["n"])
                   (start mem library)))
           ["n"] 0 "n" "new text" {["lang" := "en"]}
           {| gr_ids := Val ["n"]; gr_documents := Val ["new text"];
              gr_metadatas := Val [{["lang" := "en"]}] |}
           (engine mem
              (snd (add_documents mem stamp iso ["new text"]
                      (Some [{["lang" := "en"]}]) (Some ["n"])
                      (start mem library))))).
  - apply run_returns. vm_compute; reflexivity.
  - apply NoDup_singleton.
  - reflexivity.
  - reflexivity.
  - reflexivity.
  - vm_compute; reflexivity.
  - vm_compute; reflexivity.
Defined.

Lemma add_then_get_generated_witness :
  fst (add_documents mem stamp iso ["x"; "yy"] None None (start mem ∅))
  = inr ["doc_0_1700000000.5"; "doc_1_1700000001.5"]
  ∧ fst (get_document mem "doc_1_1700000001.5"
           (snd (add_documents mem stamp iso ["x"; "yy"] None None
                   (start mem ∅))))
    = inr (Some {| rec_id := "doc_1_1700000001.5"; rec_document := "yy";
                   rec_metadata := {["timestamp" := iso 3]} |}).
Proof.
  split; [vm_compute; reflexivity|].
  apply (add_then_get_generated mem stamp iso (mem_get_law _ _)
           (mem_add_law _ _) ["x"; "yy"] (start mem ∅)
           (snd (add_documents mem stamp iso ["x"; "yy"] None None
                   (start mem ∅)))
           ["doc_0_1700000000.5"; "doc_1_1700000001.5"] 1
           "doc_1_1700000001.5" "yy"
           {| gr_ids := Val ["doc_1_1700000001.5"]; gr_documents := Val ["yy"];
              gr_metadatas := Val [{["timestamp" := iso 3]}] |}
           (engine mem
              (snd (add_documents mem stamp iso ["x"; "yy"] None None
                      (start mem ∅))))).
  - apply run_returns. vm_compute; reflexivity.
  - reflexivity.
  - reflexivity.
  - vm_compute; reflexivity.
  - vm_compute; reflexivity.
Defined.

Lemma delete_batch_then_get_absent_witness :
  is_Some (library !! "b")
  ∧ fst (get_document mem "b"
           (snd (delete_documents mem ["a"; "b"] (start mem library))))
    = inr None.
Proof.
  split; [by eexists; vm_compute|].
  apply (delete_batch_then_get_absent mem (mem_get_law _ _)
           (mem_delete_law _ _) ["a"; "b"] "b" (start mem library)
           (snd (delete_documents mem ["a"; "b"] (start mem library)))
           {| gr_ids := Val []; gr_documents := Val [];
              gr_metadatas := Val [] |}
           (engine mem
              (snd (delete_documents mem ["a"; "b"] (start mem library))))).
  - apply run_returns. vm_compute; reflexivity.
  - apply list_elem_of_further, list_elem_of_here.
  - vm_compute; reflexivity.
Defined.

Lemma generated_id_decodes_witness :
  stamp 7 = stamp 7
  ∧ generated_id stamp 3 7 = generated_id stamp 3 7.
Proof.
  split; [reflexivity|].
  exact (proj2 (generated_id_decodes stamp 3 3 7 7) (conj eq_refl eq_refl)).
Defined.
